(** * vnats: the broker bridge (bridge.go)

    A shallow embedding of the consumer reconciliation code of the bridge:
    [patchConsumerConfig], [getOrAddConsumer], [CreateSubscription] and
    [GetOrAddStream].

    The bridge talks to a JetStream broker through the client library and
    to a logger.  Both are outside the package, so a bridge method is
    embedded as a finite program over the calls it issues ([Prog]); running
    a program against a broker ([run]) yields its result, the broker's
    final state and the list of calls and log lines, in order. *)

From Stdlib Require Import ZArith String Ascii List Bool Lia DecimalString.
From Stdlib Require Import Permutation.
Import ListNotations.

Local Open Scope string_scope.
Local Open Scope list_scope.
Local Open Scope Z_scope.

(** ** Go values used by the bridge *)

(** Go's [error] values, as far as the bridge can tell them apart: the
    sentinel [nats.ErrStreamNotFound] (compared by identity), any other
    error handed back by the client library (known by its text), and the
    two kinds of error [fmt.Errorf] makes. *)
Inductive error : Type :=
| ErrStreamNotFound
| clientError (text : string)
| errorString (s : string)
| wrapError (msg : string) (err : error).

(** [err.Error()] *)
Definition Error (e : error) : string :=
  match e with
  | ErrStreamNotFound => "nats: stream not found"
  | clientError text => text
  | errorString s => s
  | wrapError msg _ => msg
  end.

Definition error_eq_dec (x y : error) : {x = y} + {x <> y}.
Proof. decide equality; apply string_dec. Defined.

(** [a == b] on error values *)
Definition error_eqb (x y : error) : bool :=
  if error_eq_dec x y then true else false.

(** [errors.Unwrap] and [errors.Is] *)
Definition Unwrap (e : error) : option error :=
  match e with
  | wrapError _ err => Some err
  | _ => None
  end.

Fixpoint Is (e target : error) : bool :=
  error_eqb e target ||
  match e with
  | wrapError _ err => Is err target
  | _ => false
  end.

(** A Go call returning [(T, error)]: callers look at the value only when
    the error is nil. *)
Inductive result (A : Type) : Type :=
| Ok (a : A)
| Err (err : error).
Arguments Ok {A} a.
Arguments Err {A} err.

(** ** The strings package *)

(** [strings.Index]: [None] stands for -1. *)
Definition Index (s substr : string) : option nat := index 0 substr s.

(** [strings.Contains] *)
Definition Contains (s substr : string) : bool :=
  match Index s substr with
  | Some _ => true
  | None => false
  end.

(** The loop of [strings.Split] for a non-empty separator: cut at the
    first separator, go on with what follows it.  Go bounds the loop by
    the number of separators; [n] plays that part here. *)
Fixpoint genSplit (n : nat) (s sep : string) : list string :=
  match n with
  | O => [s]
  | S n' =>
      match Index s sep with
      | None => [s]
      | Some m =>
          substring 0 m s ::
          genSplit n'
            (substring (m + String.length sep)
                       (String.length s - (m + String.length sep)) s) sep
      end
  end.

(** [strings.Split(s, sep)] for a non-empty [sep] (the bridge only passes
    a one-byte separator). *)
Definition Split (s sep : string) : list string :=
  genSplit (String.length s) s sep.

(** ** The fmt package *)

Definition newline : string := String (ascii_of_nat 10) EmptyString.

(** [%v] and [%d] of an integer: base 10, with a minus sign when
    negative. *)
Definition itoa (z : Z) : string := NilZero.string_of_int (Z.to_int z).

(** ** The client library *)

Module nats.

(** Types the bridge passes around without looking inside. *)
Class Types : Type := {
  time_Time : Type;                     (* time.Time *)
  time_String : time_Time -> string;    (* its String method *)
  StreamConfig : Type;                  (* nats.StreamConfig *)
  StreamConfig_Name : StreamConfig -> string;
  StreamInfo : Type;                    (* nats.StreamInfo *)
  Subscription : Type;                  (* nats.Subscription *)
  ConsumerConfigRest : Type;            (* nats.ConsumerConfig, the fields
                                           the bridge never names *)
  zeroRest : ConsumerConfigRest         (* their zero values *)
}.

(** [nats.AckPolicy] *)
Inductive AckPolicyValue : Type :=
| AckNonePolicy
| AckAllPolicy
| AckExplicitPolicy.

Section Structs.
Context `{Types}.

(** [nats.ConsumerConfig]; [AckWait] is a [time.Duration], in
    nanoseconds, [MaxAckPending] an [int]. *)
Record ConsumerConfig : Type := {
  Durable : string;
  AckPolicy : AckPolicyValue;
  AckWait : Z;
  MaxAckPending : Z;
  Rest : ConsumerConfigRest
}.

(** [nats.ConsumerInfo], the fields the bridge reads. *)
Record ConsumerInfo : Type := {
  Name : string;
  Created : time_Time;
  Config : ConsumerConfig;
  NumAckPending : Z;
  NumPending : Z
}.

(** [nats.Bind(stream, consumer)] *)
Record SubOpt : Type := Bind { bindStream : string; bindConsumer : string }.

End Structs.
End nats.
Import nats.

(** [time.Second], a [time.Duration] *)
Definition Second : Z := 1000000000.

Module jetStreamContext.
Section Calls.
Context `{nats.Types}.

(** The methods of [nats.JetStreamContext] the bridge calls. *)
Inductive call : Type :=
| StreamInfo (stream : string)
| AddStream (cfg : nats.StreamConfig)
| ConsumerInfo (stream consumer : string)
| AddConsumer (stream : string) (cfg : nats.ConsumerConfig)
| PullSubscribe (subj durable : string) (opt : nats.SubOpt).

(** What each of them returns. *)
Definition resp (c : call) : Type :=
  match c with
  | StreamInfo _ => result nats.StreamInfo
  | AddStream _ => result nats.StreamInfo
  | ConsumerInfo _ _ => result nats.ConsumerInfo
  | AddConsumer _ _ => result nats.ConsumerInfo
  | PullSubscribe _ _ _ => result nats.Subscription
  end.

End Calls.
End jetStreamContext.

(** ** The bridge *)

Section Bridge.
Context `{nats.Types}.

(** *** fmt.Errorf *)

(** An operand of a formatting call. *)
Inductive fmtArg : Type :=
| AString (s : string)
| AInt (z : Z)
| ATime (t : nats.time_Time)
| AError (e : error).

Definition formatOperand (a : fmtArg) : string :=
  match a with
  | AString s => s
  | AInt z => itoa z
  | ATime t => nats.time_String t
  | AError e => Error e
  end.

(** [fmt.Sprintf] for the verbs the bridge uses ([%s], [%v], [%d], [%w],
    each on an operand of the fitting kind) and [%%]. *)
Fixpoint Sprintf (format : string) (args : list fmtArg) : string :=
  match format with
  | EmptyString => EmptyString
  | String "%" (String v rest) =>
      if Ascii.eqb v "%" then String "%" (Sprintf rest args)
      else
        match args with
        | a :: args' => (formatOperand a ++ Sprintf rest args')%string
        | [] => ("%!" ++ String v "(MISSING)" ++ Sprintf rest [])%string
        end
  | String c rest => String c (Sprintf rest args)
  end.

(** The operand of the [%w] verb, if the format has one. *)
Fixpoint wrapped (format : string) (args : list fmtArg) : option error :=
  match format with
  | EmptyString => None
  | String "%" (String v rest) =>
      if Ascii.eqb v "%" then wrapped rest args
      else
        match args with
        | AError e :: args' =>
            if Ascii.eqb v "w" then Some e else wrapped rest args'
        | _ :: args' => wrapped rest args'
        | [] => None
        end
  | String _ rest => wrapped rest args
  end.

(** [fmt.Errorf]: an error that wraps the [%w] operand when there is one. *)
Definition Errorf (format : string) (args : list fmtArg) : error :=
  match wrapped format args with
  | Some err => wrapError (Sprintf format args) err
  | None => errorString (Sprintf format args)
  end.

(** *** Programs over the broker and the logger *)

(** What a bridge method does: return, call the JetStream context and go
    on with the answer, write a debug line, or panic. *)
Inductive Prog (A : Type) : Type :=
| Ret (a : A)
| Do (c : jetStreamContext.call) (k : jetStreamContext.resp c -> Prog A)
| Log (format : string) (args : list fmtArg) (k : Prog A)
| Panic (msg : string).
Arguments Ret {A} a.
Arguments Do {A} c k.
Arguments Log {A} format args k.
Arguments Panic {A} msg.

Fixpoint bind {A B : Type} (p : Prog A) (f : A -> Prog B) : Prog B :=
  match p with
  | Ret a => f a
  | Do c k => Do c (fun r => bind (k r) f)
  | Log format args k => Log format args (bind k f)
  | Panic msg => Panic msg
  end.

(** [c.jetStreamContext.M(...)] *)
Definition js (c : jetStreamContext.call) : Prog (jetStreamContext.resp c) :=
  Do c Ret.

(** [c.log.Debugf(format, args...)] *)
Definition Debugf (format : string) (args : list fmtArg) : Prog unit :=
  Log format args (Ret tt).

Notation "x <- p ;; k" := (bind p (fun x => k))
  (at level 61, p at next level, right associativity).
Notation "p ;;; k" := (bind p (fun _ => k))
  (at level 61, right associativity).

(** *** GetOrAddStream *)

(** GetOrAddStream returns a *nats.StreamInfo and for the given streamInfo
    name.  It adds a new streamInfo if it does not exist. *)
Definition GetOrAddStream (streamConfig : nats.StreamConfig)
  : Prog (result nats.StreamInfo) :=
  let name := nats.StreamConfig_Name streamConfig in
  r <- js (jetStreamContext.StreamInfo name) ;;
  match r with
  | Err err =>
      if negb (error_eqb err ErrStreamNotFound) then
        Ret (Err (Errorf "NATS streamInfo-info could not be fetched: %w"
                         [AError err]))
      else
        Debugf ("Stream %s not found, trying to create..." ++ newline)
               [AString name] ;;;
        r' <- js (jetStreamContext.AddStream streamConfig) ;;
        match r' with
        | Err err' =>
            Ret (Err (Errorf "streamInfo %s could not be created: %w"
                             [AString name; AError err']))
        | Ok streamInfo =>
            Debugf ("created new NATS streamInfo %s" ++ newline)
                   [AString name] ;;;
            Ret (Ok streamInfo)
        end
  | Ok streamInfo => Ret (Ok streamInfo)
  end.

(** *** SubscriptionMode *)

(** [type SubscriptionMode int] *)
Definition SubscriptionMode : Type := Z.

(** MultipleInstances mode (default) enables multiple subscriber of one
    consumer for horizontal scaling. *)
Definition MultipleInstances : SubscriptionMode := 0.

(** SingleInstanceMessagesInOrder mode enables strict order of
    messages. *)
Definition SingleInstanceMessagesInOrder : SubscriptionMode := 1.

(** [config.MaxAckPending = v] *)
Definition setMaxAckPending (v : Z) (config : nats.ConsumerConfig)
  : nats.ConsumerConfig :=
  {| Durable := Durable config;
     AckPolicy := AckPolicy config;
     AckWait := AckWait config;
     MaxAckPending := v;
     Rest := Rest config |}.

(** The function writes through its pointer argument; the embedding
    returns the configuration as it is after the call. *)
Definition patchConsumerConfig (config : nats.ConsumerConfig)
  (mode : SubscriptionMode) : nats.ConsumerConfig :=
  if mode =? MultipleInstances then setMaxAckPending 0 config
  else if mode =? SingleInstanceMessagesInOrder then setMaxAckPending 1 config
  else setMaxAckPending 0 config.

(** *** getOrAddConsumer *)

(** The stored bound is converted to a [SubscriptionMode] for the error
    text; the type has no String method in the bridge, so [%v] prints it
    as an integer. *)
Definition getOrAddConsumer (streamName : string)
  (consumerConfig : nats.ConsumerConfig) : Prog (result nats.ConsumerInfo) :=
  r <- js (jetStreamContext.ConsumerInfo streamName (Durable consumerConfig)) ;;
  match r with
  | Err err =>
      if negb (Contains (Error err) "consumer not found") then Ret (Err err)
      else
        r' <- js (jetStreamContext.AddConsumer streamName consumerConfig) ;;
        match r' with
        | Err err' =>
            Ret (Err (Errorf "consumer %s could not be added to stream %s: %w"
                             [AString (Durable consumerConfig);
                              AString streamName; AError err']))
        | Ok ci =>
            Debugf "Consumer %s for stream %s created at %s. %d messages pending, #%d ack pending"
                   [AString (Name ci); AString streamName; ATime (Created ci);
                    AInt (NumPending ci); AInt (NumAckPending ci)] ;;;
            Ret (Ok ci)
        end
  | Ok ci =>
      if negb (MaxAckPending (Config ci) =? MaxAckPending consumerConfig) then
        Ret (Err (Errorf
          "consumer %s SubscriptionMode has changed. Please use the existing SubscriptionMode=%v or delete consumer"
          [AString (Durable consumerConfig);
           AInt (MaxAckPending (Config ci) : SubscriptionMode)]))
      else Ret (Ok ci)
  end.

(** *** CreateSubscription *)

(** [natsSubscription] *)
Record natsSubscription : Type := {
  streamSubscription : nats.Subscription
}.

(** CreateSubscription creates a natsSubscription, that can fetch messages
    from a specified subject.  The first token of a subject will be
    interpreted as the streamName. *)
Definition CreateSubscription (subject consumerName : string)
  (mode : SubscriptionMode) : Prog (result natsSubscription) :=
  match Split subject "." with
  | [] => Panic "index out of range [0] with length 0"
  | streamName :: _ =>
      let config :=
        {| Durable := consumerName;
           AckPolicy := nats.AckExplicitPolicy;
           AckWait := Second * 30;
           MaxAckPending := 0;
           Rest := nats.zeroRest |} in
      let config := patchConsumerConfig config mode in
      r <- getOrAddConsumer streamName config ;;
      match r with
      | Err err => Ret (Err err)
      | Ok _ =>
          r' <- js (jetStreamContext.PullSubscribe subject consumerName
                      (nats.Bind streamName consumerName)) ;;
          match r' with
          | Err err => Ret (Err err)
          | Ok sub => Ret (Ok {| streamSubscription := sub |})
          end
      end
  end.

End Bridge.

Arguments Ret {H A} a.
Arguments Do {H A} c k.
Arguments Log {H A} format args k.
Arguments Panic {H A} msg.

(** ** Running a bridge method against a broker *)

Section Run.
Context `{nats.Types}.

(** How a call ended: with the values the Go function returns, or in a
    panic. *)
Inductive outcome (A : Type) : Type :=
| Returned (a : A)
| Panicked (msg : string).

(** What the bridge did to the outside, in order. *)
Inductive event : Type :=
| Called (c : jetStreamContext.call)
| Logged (format : string) (args : list fmtArg).

(** A broker with states [B] answers every call and moves to a new
    state. *)
Definition Broker (B : Type) : Type :=
  forall c : jetStreamContext.call, B -> jetStreamContext.resp c * B.

Fixpoint run {B A : Type} (broker : Broker B) (p : Prog A) (b : B)
  : outcome A * B * list event :=
  match p with
  | Ret a => (Returned A a, b, [])
  | Do c k =>
      let (r, b') := broker c b in
      let '(o, b'', evs) := run broker (k r) b' in
      (o, b'', Called c :: evs)
  | Log format args k =>
      let '(o, b', evs) := run broker k b in
      (o, b', Logged format args :: evs)
  | Panic msg => (Panicked A msg, b, [])
  end.

(** The calls among the events. *)
Fixpoint calls (evs : list event) : list jetStreamContext.call :=
  match evs with
  | [] => []
  | Called c :: evs' => c :: calls evs'
  | Logged _ _ :: evs' => calls evs'
  end.

(** The stream a call is addressed to. *)
Definition streamOf (c : jetStreamContext.call) : string :=
  match c with
  | jetStreamContext.StreamInfo stream => stream
  | jetStreamContext.AddStream cfg => nats.StreamConfig_Name cfg
  | jetStreamContext.ConsumerInfo stream _ => stream
  | jetStreamContext.AddConsumer stream _ => stream
  | jetStreamContext.PullSubscribe _ _ opt => bindStream opt
  end.

Definition isAddConsumer (c : jetStreamContext.call) : bool :=
  match c with
  | jetStreamContext.AddConsumer _ _ => true
  | _ => false
  end.

Definition isAddStream (c : jetStreamContext.call) : bool :=
  match c with
  | jetStreamContext.AddStream _ => true
  | _ => false
  end.

Definition isPullSubscribe (c : jetStreamContext.call) : bool :=
  match c with
  | jetStreamContext.PullSubscribe _ _ _ => true
  | _ => false
  end.

(** A broker that keeps its consumers: one it has just added, or just
    reported, is still there at the next lookup, with the bound on
    pending acknowledgements it had in the broker's last answer.  That
    bound need not be the one the consumer was asked for with. *)
Record KeepsConsumers {B : Type} (broker : Broker B) : Prop := {
  lookup_after_add :
    forall stream cfg b ci b',
      broker (jetStreamContext.AddConsumer stream cfg) b = (Ok ci, b') ->
      exists ci' b'',
        broker (jetStreamContext.ConsumerInfo stream (Durable cfg)) b'
          = (Ok ci', b'') /\
        MaxAckPending (Config ci') = MaxAckPending (Config ci);
  lookup_again :
    forall stream consumer b ci b',
      broker (jetStreamContext.ConsumerInfo stream consumer) b = (Ok ci, b') ->
      exists ci' b'',
        broker (jetStreamContext.ConsumerInfo stream consumer) b'
          = (Ok ci', b'') /\
        MaxAckPending (Config ci') = MaxAckPending (Config ci)
}.

End Run.

Arguments Returned {A} a.
Arguments Panicked {A} msg.

(** ** Brokers to run against *)

(** The library's opaque types, filled in with plain data: a stream
    configuration or information is the stream's name, a subscription the
    subject and durable name it was made for. *)
Definition plainTypes : nats.Types :=
  {| nats.time_Time := Z;
     nats.time_String := itoa;
     nats.StreamConfig := string;
     nats.StreamConfig_Name := fun name => name;
     nats.StreamInfo := string;
     nats.Subscription := (string * string)%type;
     nats.ConsumerConfigRest := unit;
     nats.zeroRest := tt |}.

Section Brokers.
#[local] Existing Instance plainTypes.

(** An in-memory broker: the streams and the consumers it holds. *)
Record memory : Type := {
  streams : list string;
  consumers : list (string * nats.ConsumerInfo)
}.

Definition emptyMemory : memory := {| streams := []; consumers := [] |}.

Definition findConsumer (stream consumer : string) (b : memory)
  : option nats.ConsumerInfo :=
  match find (fun e => (fst e =? stream)%string && (Name (snd e) =? consumer)%string)
             (consumers b) with
  | Some e => Some (snd e)
  | None => None
  end.

Definition newConsumer (cfg : nats.ConsumerConfig) : nats.ConsumerInfo :=
  {| Name := Durable cfg; Created := 0; Config := cfg;
     NumAckPending := 0; NumPending := 0 |}.

(** It stores what it is given and reports what it stores. *)
Definition memoryBroker : Broker memory :=
  fun c =>
    match c as c' return memory -> jetStreamContext.resp c' * memory with
    | jetStreamContext.StreamInfo stream => fun b =>
        if existsb (String.eqb stream) (streams b) then (Ok stream, b)
        else (Err ErrStreamNotFound, b)
    | jetStreamContext.AddStream cfg => fun b =>
        (Ok cfg, {| streams := cfg :: streams b; consumers := consumers b |})
    | jetStreamContext.ConsumerInfo stream consumer => fun b =>
        match findConsumer stream consumer b with
        | Some ci => (Ok ci, b)
        | None => (Err (clientError "nats: consumer not found"), b)
        end
    | jetStreamContext.AddConsumer stream cfg => fun b =>
        (Ok (newConsumer cfg),
         {| streams := streams b;
            consumers := (stream, newConsumer cfg) :: consumers b |})
    | jetStreamContext.PullSubscribe subj durable _ => fun b =>
        (Ok (subj, durable), b)
    end.

(** A broker that cannot be reached: every call times out. *)
Definition downBroker : Broker unit :=
  fun c =>
    match c as c' return unit -> jetStreamContext.resp c' * unit with
    | jetStreamContext.StreamInfo _ => fun b => (Err (clientError "nats: timeout"), b)
    | jetStreamContext.AddStream _ => fun b => (Err (clientError "nats: timeout"), b)
    | jetStreamContext.ConsumerInfo _ _ => fun b => (Err (clientError "nats: timeout"), b)
    | jetStreamContext.AddConsumer _ _ => fun b => (Err (clientError "nats: timeout"), b)
    | jetStreamContext.PullSubscribe _ _ _ => fun b => (Err (clientError "nats: timeout"), b)
    end.

(** A broker that holds nothing and lets nothing be added. *)
Definition readOnlyBroker : Broker unit :=
  fun c =>
    match c as c' return unit -> jetStreamContext.resp c' * unit with
    | jetStreamContext.StreamInfo _ => fun b => (Err ErrStreamNotFound, b)
    | jetStreamContext.AddStream _ => fun b =>
        (Err (clientError "nats: permissions violation"), b)
    | jetStreamContext.ConsumerInfo _ _ => fun b =>
        (Err (clientError "nats: consumer not found"), b)
    | jetStreamContext.AddConsumer _ _ => fun b =>
        (Err (clientError "nats: permissions violation"), b)
    | jetStreamContext.PullSubscribe _ _ _ => fun b =>
        (Err (clientError "nats: permissions violation"), b)
    end.

(** The in-memory broker with a default of its own: a consumer sent
    with bound 0 is stored, and answered, with bound 1000. *)
Definition withDefaultBound (cfg : nats.ConsumerConfig) : nats.ConsumerConfig :=
  if MaxAckPending cfg =? 0 then setMaxAckPending 1000 cfg else cfg.

Definition defaultingBroker : Broker memory :=
  fun c =>
    match c as c' return memory -> jetStreamContext.resp c' * memory with
    | jetStreamContext.AddConsumer stream cfg =>
        memoryBroker (jetStreamContext.AddConsumer stream (withDefaultBound cfg))
    | c' => memoryBroker c'
    end.

(** A consumer configuration as a caller of the bridge could hold it. *)
Definition sampleConfig (name : string) (pending : Z) : nats.ConsumerConfig :=
  {| Durable := name; AckPolicy := nats.AckExplicitPolicy;
     AckWait := Second * 30; MaxAckPending := pending; Rest := tt |}.

(** A broker state with consumer [name] on [stream], stored with
    [pending] as its bound. *)
Definition holding (stream name : string) (pending : Z) : memory :=
  {| streams := [stream];
     consumers := [(stream, newConsumer (sampleConfig name pending))] |}.

End Brokers.

(** ** Vocabulary of the properties *)

Section Vocabulary.
Context `{nats.Types}.

(** The error [getOrAddConsumer] makes when the consumer it finds has
    another bound than the one asked for. *)
Definition driftError (consumer : string) (existing : SubscriptionMode)
  : error :=
  Errorf
    "consumer %s SubscriptionMode has changed. Please use the existing SubscriptionMode=%v or delete consumer"
    [AString consumer; AInt existing].

(** The text of an error mentions [s]. *)
Definition mentions (e : error) (s : string) : bool :=
  Contains (Error e) s.

(** [s] has no [.] in it. *)
Definition hasDot (s : string) : bool :=
  existsb (Ascii.eqb ".") (list_ascii_of_string s).

Definition dotless (s : string) : Prop := hasDot s = false.

(** The consumer configuration [CreateSubscription] starts from, before
    the mode is applied. *)
Definition literalConfig (consumerName : string) : nats.ConsumerConfig :=
  {| Durable := consumerName;
     AckPolicy := nats.AckExplicitPolicy;
     AckWait := Second * 30;
     MaxAckPending := 0;
     Rest := nats.zeroRest |}.

End Vocabulary.

(** ** The rest of the bridge: connecting, publishing, draining *)

(** [strings.Join] *)
Definition Join (elems : list string) (sep : string) : string :=
  String.concat sep elems.

(** More types of the client library that the bridge only passes
    around. *)
Class ConnTypes : Type := {
  Conn : Type;                          (* nats.Conn *)
  JetStreamContext : Type;              (* nats.JetStreamContext *)
  Msg : Type;                           (* nats.Msg *)
  PubAck : Type;                        (* nats.PubAck *)
  Logger : Type                         (* logger.Logger *)
}.

Section Connection.
Context `{nats.Types} `{ConnTypes}.

(** A line handed to [log.Errorf]: the format and the operands, [None]
    for a nil one. *)
Record errorLine : Type := {
  lineFormat : string;
  lineOperands : list (option fmtArg)
}.

(** The options the bridge passes to [nats.Connect].  A handler is given
    by the line it logs, as a function of what it reads: the error it is
    called with, [nc.ConnectedUrl()], [nc.LastError()]. *)
Inductive connOption : Type :=
| DisconnectErrHandler (cb : option error -> errorLine)
| ReconnectHandler (cb : string -> errorLine)
| ClosedHandler (cb : option error -> errorLine).

(** [nats.MsgId(id)] *)
Inductive pubOpt : Type :=
| MsgId (id : string).

(** The client library as the bridge uses it, over the states [W] of
    the world outside. *)
Record Library (W : Type) : Type := {
  nats_Connect : string -> list connOption -> W -> result Conn * W;
  Conn_JetStream : Conn -> W -> result JetStreamContext * W;
  Conn_Servers : Conn -> W -> list string * W;
  Conn_Drain : Conn -> W -> option error * W;
  JS_PublishMsg :
    JetStreamContext -> Msg -> list pubOpt -> W -> result PubAck * W;
  JS_DeleteStream : JetStreamContext -> string -> W -> option error * W
}.

(** The calls made to it, in order. *)
Inductive libCall : Type :=
| CalledConnect (url : string) (opts : list connOption)
| CalledJetStream (nc : Conn)
| CalledServers (nc : Conn)
| CalledDrain (nc : Conn)
| CalledPublishMsg (js : JetStreamContext) (msg : Msg) (opts : list pubOpt)
| CalledDeleteStream (js : JetStreamContext) (streamName : string).

(** [natsBridge] *)
Record natsBridge : Type := {
  connection : Conn;
  jetStreamContext : JetStreamContext;
  log : Logger
}.

(** The three handlers [makeNATSBridge] installs. *)
Definition bridgeOptions : list connOption :=
  [DisconnectErrHandler (fun err =>
     {| lineFormat := "Got disconnected: %q" ++ newline;
        lineOperands := [option_map AError err] |});
   ReconnectHandler (fun connectedUrl =>
     {| lineFormat := "Got reconnected to %v!" ++ newline;
        lineOperands := [Some (AString connectedUrl)] |});
   ClosedHandler (fun lastError =>
     {| lineFormat := "Connection closed: %q" ++ newline;
        lineOperands := [option_map AError lastError] |})].

Section WithLibrary.
Context {W : Type} (lib : Library W).

(** makeNATSBridge returns a natsBridge connection struct to communicate
    with NATS server(s). *)
Definition makeNATSBridge (servers : list string) (log : Logger) (w : W)
  : result natsBridge * W * list libCall :=
  let url := Join servers "," in
  let (r, w1) := nats_Connect W lib url bridgeOptions w in
  match r with
  | Err err =>
      (Err (Errorf "could not make NATS connection to %s: %w"
                   [AString url; AError err]),
       w1, [CalledConnect url bridgeOptions])
  | Ok nc =>
      let (r', w2) := Conn_JetStream W lib nc w1 in
      match r' with
      | Err err =>
          (Err err, w2, [CalledConnect url bridgeOptions; CalledJetStream nc])
      | Ok js =>
          (Ok {| connection := nc; jetStreamContext := js; log := log |},
           w2, [CalledConnect url bridgeOptions; CalledJetStream nc])
      end
  end.

(** PublishMsg publishes a Msg to JetStream. *)
Definition PublishMsg (c : natsBridge) (msg : Msg) (msgID : string) (w : W)
  : option error * W * list libCall :=
  let (r, w1) := JS_PublishMsg W lib (jetStreamContext c) msg [MsgId msgID] w in
  (match r with
   | Ok _ => None
   | Err err => Some err
   end,
   w1, [CalledPublishMsg (jetStreamContext c) msg [MsgId msgID]]).

(** Servers returns the list of NATS servers *)
Definition Servers (c : natsBridge) (w : W)
  : list string * W * list libCall :=
  let (servers, w1) := Conn_Servers W lib (connection c) w in
  (servers, w1, [CalledServers (connection c)]).

Definition DeleteStream (c : natsBridge) (streamName : string) (w : W)
  : option error * W * list libCall :=
  let (err, w1) := JS_DeleteStream W lib (jetStreamContext c) streamName w in
  (err, w1, [CalledDeleteStream (jetStreamContext c) streamName]).

(** Drain will put a connection into a drain state. *)
Definition Drain (c : natsBridge) (w : W)
  : option error * W * list libCall :=
  let (err, w1) := Conn_Drain W lib (connection c) w in
  (err, w1, [CalledDrain (connection c)]).

End WithLibrary.
End Connection.

(** ** More about brokers *)

Section BrokerLaws.
Context `{nats.Types}.

(** A broker that keeps its streams: one it has just added, or just
    reported, is still there at the next lookup. *)
Record KeepsStreams {B : Type} (broker : Broker B) : Prop := {
  stream_after_add :
    forall cfg b streamInfo b',
      broker (jetStreamContext.AddStream cfg) b = (Ok streamInfo, b') ->
      exists streamInfo' b'',
        broker (jetStreamContext.StreamInfo (nats.StreamConfig_Name cfg)) b'
        = (Ok streamInfo', b'');
  stream_again :
    forall stream b streamInfo b',
      broker (jetStreamContext.StreamInfo stream) b = (Ok streamInfo, b') ->
      exists streamInfo' b'',
        broker (jetStreamContext.StreamInfo stream) b' = (Ok streamInfo', b'')
}.

(** A broker on which subscribing leaves the consumers as they are. *)
Definition SubscribeKeepsConsumers {B : Type} (broker : Broker B) : Prop :=
  forall subj durable opt r b b' stream consumer ci b1,
    broker (jetStreamContext.PullSubscribe subj durable opt) b = (r, b') ->
    broker (jetStreamContext.ConsumerInfo stream consumer) b = (Ok ci, b1) ->
    exists ci' b1',
      broker (jetStreamContext.ConsumerInfo stream consumer) b' = (Ok ci', b1') /\
      MaxAckPending (Config ci') = MaxAckPending (Config ci).

End BrokerLaws.

(** ** The test helper for unordered comparison (subscriber test) *)

(** A [[]string] value: nil, or the first [len] cells of a backing
    array.  Slicing and assigning through an index do not copy, so the
    slices made from one another below share the array. *)
Inductive stringSlice : Type :=
| nilSlice
| sliceOf (array : list string) (len : nat).

(** [len(s)] *)
Definition sliceLen (s : stringSlice) : nat :=
  match s with
  | nilSlice => 0
  | sliceOf _ len => len
  end.

Definition backing (s : stringSlice) : list string :=
  match s with
  | nilSlice => []
  | sliceOf array _ => array
  end.

(** The elements of [s], in order. *)
Definition elements (s : stringSlice) : list string :=
  firstn (sliceLen s) (backing s).

(** A slice with the elements [l] and no spare capacity. *)
Definition sliceFrom (l : list string) : stringSlice :=
  sliceOf l (List.length l).

(** The run-time panics of indexing and slicing. *)
Definition indexPanic (i : Z) (len : nat) : string :=
  if i <? 0 then
    ("runtime error: index out of range [" ++ itoa i ++ "]")%string
  else
    ("runtime error: index out of range [" ++ itoa i ++ "] with length "
     ++ itoa (Z.of_nat len))%string.

Definition slicePanic (hi : Z) (cap : nat) : string :=
  if hi <? 0 then
    ("runtime error: slice bounds out of range [:" ++ itoa hi ++ "]")%string
  else
    ("runtime error: slice bounds out of range [:" ++ itoa hi
     ++ "] with capacity " ++ itoa (Z.of_nat cap))%string.

(** [s[i]] *)
Definition getIndex (s : stringSlice) (i : Z) : outcome string :=
  if (0 <=? i) && (i <? Z.of_nat (sliceLen s)) then
    Returned (nth (Z.to_nat i) (backing s) "")
  else Panicked (indexPanic i (sliceLen s)).

(** The array with cell [i] set to [v]. *)
Fixpoint setCell (array : list string) (i : nat) (v : string) : list string :=
  match array, i with
  | [], _ => []
  | _ :: rest, O => v :: rest
  | x :: rest, S i' => x :: setCell rest i' v
  end.

(** [s[i] = v] *)
Definition setIndex (s : stringSlice) (i : nat) (v : string)
  : outcome stringSlice :=
  match s with
  | sliceOf array len =>
      if (i <? len)%nat then Returned (sliceOf (setCell array i v) len)
      else Panicked (indexPanic (Z.of_nat i) len)
  | nilSlice => Panicked (indexPanic (Z.of_nat i) 0)
  end.

(** [s[:hi]] *)
Definition sliceTo (s : stringSlice) (hi : Z) : outcome stringSlice :=
  match s with
  | sliceOf array _ =>
      if (0 <=? hi) && (hi <=? Z.of_nat (List.length array)) then
        Returned (sliceOf array (Z.to_nat hi))
      else Panicked (slicePanic hi (List.length array))
  | nilSlice =>
      if hi =? 0 then Returned nilSlice else Panicked (slicePanic hi 0)
  end.

Definition andThen {A C : Type} (o : outcome A) (f : A -> outcome C)
  : outcome C :=
  match o with
  | Returned a => f a
  | Panicked msg => Panicked msg
  end.

(** The body of the inner loop, at index [idx]: [foundMsg] is read
    through the slice the loop ranges over, which shares its array with
    [receivedMessages]; on a match, the last element is moved to [idx]
    and the slice is shortened by one. *)
Definition dropIfEqual (expectedMsg : string) (idx : nat)
  (receivedMessages : stringSlice) : outcome stringSlice :=
  let foundMsg := nth idx (backing receivedMessages) "" in
  if (expectedMsg =? foundMsg)%string then
    andThen (getIndex receivedMessages
               (Z.of_nat (sliceLen receivedMessages) - 1)) (fun last =>
    andThen (setIndex receivedMessages idx last) (fun receivedMessages =>
    sliceTo receivedMessages (Z.of_nat (sliceLen receivedMessages) - 1)))
  else Returned receivedMessages.

(** The inner loop over the indices [idxs]. *)
Fixpoint rangeReceived (expectedMsg : string) (idxs : list nat)
  (receivedMessages : stringSlice) : outcome stringSlice :=
  match idxs with
  | [] => Returned receivedMessages
  | idx :: idxs' =>
      andThen (dropIfEqual expectedMsg idx receivedMessages)
              (rangeReceived expectedMsg idxs')
  end.

(** The two loops: for each expected message, range over the received
    ones as they are when the inner loop starts. *)
Fixpoint dropExpected (expectedMessages : list string)
  (receivedMessages : stringSlice) : outcome stringSlice :=
  match expectedMessages with
  | [] => Returned receivedMessages
  | expectedMsg :: rest =>
      andThen (rangeReceived expectedMsg
                 (seq 0 (sliceLen receivedMessages)) receivedMessages)
              (dropExpected rest)
  end.

(** [reflect.DeepEqual(s, []string{})]: [s] is not nil and has no
    element. *)
Definition deepEqualEmpty (s : stringSlice) : bool :=
  match s with
  | nilSlice => false
  | sliceOf _ len => (len =? 0)%nat
  end.

(** [%v] of a [[]string] *)
Definition formatStrings (l : list string) : string :=
  ("[" ++ String.concat " " l ++ "]")%string.

(** [cmpStringSlicesIgnoreOrder]; the expected messages are taken not to
    share their array with the received ones.  The result is the error
    returned ([None] for nil), or the panic. *)
Definition cmpStringSlicesIgnoreOrder (expectedMessages : list string)
  (receivedMessages : stringSlice) : outcome (option error) :=
  andThen (dropExpected expectedMessages receivedMessages)
    (fun receivedMessages =>
       if negb (deepEqualEmpty receivedMessages) then
         Returned (Some (errorString
           ("more messages were received than published. Additional msgs: "
            ++ formatStrings (elements receivedMessages))))
       else Returned None).

(** [s] has no byte [c] in it. *)
Definition lacks (c : ascii) (s : string) : Prop :=
  existsb (Ascii.eqb c) (list_ascii_of_string s) = false.

(** ** Client libraries to connect through *)

(** The connection types filled in with plain data: a connection is the
    url it was opened with, a JetStream context the url of its
    connection, a message its payload. *)
Definition plainConnTypes : ConnTypes :=
  {| Conn := string;
     JetStreamContext := string;
     Msg := string;
     PubAck := unit;
     Logger := unit |}.

Section Libraries.
#[local] Existing Instance plainTypes.
#[local] Existing Instance plainConnTypes.

(** A library that reaches its servers; it counts the connections it has
    opened and not drained. *)
Definition workingLibrary : Library nat :=
  {| nats_Connect := fun url _ open => (Ok url, S open);
     Conn_JetStream := fun nc open => (Ok nc, open);
     Conn_Servers := fun nc open => (Split nc ",", open);
     Conn_Drain := fun _ open => (None, pred open);
     JS_PublishMsg := fun _ _ _ open => (Ok tt, open);
     JS_DeleteStream := fun _ _ open => (None, open) |}.

(** A library that reaches no server. *)
Definition unreachableLibrary : Library nat :=
  {| nats_Connect := fun _ _ open =>
       (Err (clientError "nats: no servers available for connection"), open);
     Conn_JetStream := fun nc open => (Ok nc, open);
     Conn_Servers := fun nc open => (Split nc ",", open);
     Conn_Drain := fun _ open => (None, pred open);
     JS_PublishMsg := fun _ _ _ open => (Ok tt, open);
     JS_DeleteStream := fun _ _ open => (None, open) |}.

(** A library whose servers do not have JetStream enabled. *)
Definition plainNatsLibrary : Library nat :=
  {| nats_Connect := fun url _ open => (Ok url, S open);
     Conn_JetStream := fun _ open =>
       (Err (clientError "nats: jetstream not enabled"), open);
     Conn_Servers := fun nc open => (Split nc ",", open);
     Conn_Drain := fun _ open => (None, pred open);
     JS_PublishMsg := fun _ _ _ open =>
       (Err (clientError "nats: jetstream not enabled"), open);
     JS_DeleteStream := fun _ _ open =>
       (Some (clientError "nats: jetstream not enabled"), open) |}.

(** Two servers, and the error for them when none is reached. *)
Definition twoServers : list string := ["nats://a:4222"; "nats://b:4222"].

Definition unreachableError : error :=
  wrapError
    "could not make NATS connection to nats://a:4222,nats://b:4222: nats: no servers available for connection"
    (clientError "nats: no servers available for connection").

(** The bridge the working library gives for a url. *)
Definition plainBridge (url : string) : natsBridge :=
  {| connection := url; jetStreamContext := url; log := tt |}.

End Libraries.

(** ** One more broker *)

Section MoreBrokers.
#[local] Existing Instance plainTypes.

(** The in-memory broker with pull subscriptions switched off. *)
Definition pushOnlyBroker : Broker memory :=
  fun c =>
    match c as c' return memory -> jetStreamContext.resp c' * memory with
    | jetStreamContext.PullSubscribe _ _ _ => fun b =>
        (Err (clientError "nats: pull subscribe not supported"), b)
    | c' => memoryBroker c'
    end.

(** A configuration with another ack policy and ack wait than the
    bridge uses. *)
Definition looseConfig (name : string) (pending : Z) : nats.ConsumerConfig :=
  {| Durable := name; AckPolicy := nats.AckNonePolicy;
     AckWait := Second * 5; MaxAckPending := pending; Rest := tt |}.

(** The subscription the in-memory broker answers a pull subscription
    with. *)
Definition pulled (subj durable : string) : natsSubscription :=
  {| streamSubscription := (subj, durable) |}.

End MoreBrokers.

(** * Properties *)

Section Properties.
Context `{nats.Types}.

(** ** Strings *)

Lemma prefix_append (s rest : string) : prefix s (s ++ rest)%string = true.
Proof.
  induction s as [| c s IH]; simpl.
  - destruct rest; reflexivity.
  - destruct (ascii_dec c c) as [_ | Hne]; [exact IH | contradiction].
Qed.

Lemma index_prefix (s t : string) :
  prefix s t = true -> index 0 s t = Some 0%nat.
Proof.
  intro Hp. destruct t as [| c t]; simpl.
  - destruct s; [reflexivity | discriminate].
  - simpl in Hp. rewrite Hp. reflexivity.
Qed.

Lemma index_cons (s : string) (c : ascii) (t : string) :
  index 0 s (String c t)
  = if prefix s (String c t) then Some 0%nat
    else match index 0 s t with
         | Some n => Some (S n)
         | None => None
         end.
Proof. reflexivity. Qed.

Lemma append_assoc (s t u : string) :
  ((s ++ t) ++ u = s ++ t ++ u)%string.
Proof. induction s as [| c s IH]; simpl; [reflexivity | now rewrite IH]. Qed.

Lemma append_nil_r (s : string) : (s ++ "")%string = s.
Proof. induction s as [| c s IH]; simpl; [reflexivity | now rewrite IH]. Qed.

(** A string contains each of its pieces. *)
Lemma Contains_middle (before s after : string) :
  Contains (before ++ s ++ after)%string s = true.
Proof.
  unfold Contains, Index.
  induction before as [| c before IH].
  - simpl append. rewrite index_prefix by apply prefix_append. reflexivity.
  - change ((String c before ++ s ++ after)%string)
      with (String c (before ++ s ++ after)%string).
    rewrite index_cons.
    destruct (prefix s (String c (before ++ s ++ after))); [reflexivity|].
    destruct (index 0 s (before ++ s ++ after)); [reflexivity | discriminate].
Qed.

(** *** Splitting at the dots *)

Lemma dotless_cons (c : ascii) (s : string) :
  dotless (String c s) -> c <> "."%char /\ dotless s.
Proof.
  unfold dotless, hasDot. simpl. intro Hn.
  apply orb_false_iff in Hn as [Hc Hs]. split; [|exact Hs].
  intros ->. discriminate.
Qed.

Lemma prefix_dot (c : ascii) (s : string) :
  prefix "." (String c s) = if ascii_dec "." c then true else false.
Proof.
  change (prefix "." (String c s))
    with (if ascii_dec "." c then prefix "" s else false).
  destruct (ascii_dec "." c); [destruct s|]; reflexivity.
Qed.

Lemma Index_dotless (s : string) : dotless s -> Index s "." = None.
Proof.
  unfold Index. induction s as [| c s IH]; intro Hd; [reflexivity|].
  apply dotless_cons in Hd as [Hc Hs].
  rewrite index_cons, prefix_dot.
  destruct (ascii_dec "." c) as [Heq | _]; [now symmetry in Heq|].
  now rewrite (IH Hs).
Qed.

Lemma Index_first_dot (pre post : string) :
  dotless pre ->
  Index (pre ++ "." ++ post)%string "." = Some (String.length pre).
Proof.
  unfold Index. induction pre as [| c pre IH]; intro Hd.
  - change (("" ++ "." ++ post)%string) with (String "." post).
    rewrite index_cons, prefix_dot.
    destruct (ascii_dec "." "."); [reflexivity | contradiction].
  - apply dotless_cons in Hd as [Hc Hs].
    change ((String c pre ++ "." ++ post)%string)
      with (String c (pre ++ "." ++ post)%string).
    rewrite index_cons, prefix_dot.
    destruct (ascii_dec "." c) as [Heq | _]; [now symmetry in Heq|].
    now rewrite (IH Hs).
Qed.

Lemma substring_append (pre rest : string) :
  substring 0 (String.length pre) (pre ++ rest)%string = pre.
Proof.
  induction pre as [| c pre IH]; simpl.
  - destruct rest; reflexivity.
  - now rewrite IH.
Qed.

Lemma length_append (s t : string) :
  String.length (s ++ t)%string = (String.length s + String.length t)%nat.
Proof. induction s as [| c s IH]; simpl; [reflexivity | now rewrite IH]. Qed.

(** [strings.Split] never returns an empty slice. *)
Lemma Split_nonempty (s sep : string) :
  exists token tokens, Split s sep = token :: tokens.
Proof.
  unfold Split. destruct (String.length s) as [| n]; simpl.
  - now exists s, [].
  - destruct (Index s sep) as [m |]; eexists; eexists; reflexivity.
Qed.

Lemma Split_first_dot (pre post : string) :
  dotless pre ->
  exists tokens, Split (pre ++ "." ++ post)%string "." = pre :: tokens.
Proof.
  intro Hd. unfold Split. rewrite length_append. simpl String.length.
  rewrite Nat.add_succ_r. cbn [genSplit].
  rewrite (Index_first_dot pre post Hd), substring_append.
  eexists. reflexivity.
Qed.

Lemma Split_dotless (s : string) : dotless s -> Split s "." = [s].
Proof.
  intro Hd. unfold Split. destruct (String.length s); simpl;
    [| rewrite (Index_dotless s Hd)]; reflexivity.
Qed.

(** ** The mode policy *)

Lemma patchConsumerConfig_set (config : nats.ConsumerConfig)
  (mode : SubscriptionMode) :
  patchConsumerConfig config mode
  = setMaxAckPending
      (if mode =? SingleInstanceMessagesInOrder then 1 else 0) config.
Proof.
  unfold patchConsumerConfig, MultipleInstances, SingleInstanceMessagesInOrder.
  destruct (mode =? 0) eqn:E0; destruct (mode =? 1) eqn:E1; try reflexivity.
  apply Z.eqb_eq in E0, E1. lia.
Qed.

Lemma Durable_patchConsumerConfig (config : nats.ConsumerConfig)
  (mode : SubscriptionMode) :
  Durable (patchConsumerConfig config mode) = Durable config.
Proof. rewrite patchConsumerConfig_set. reflexivity. Qed.

(** C3: the policy from mode to [MaxAckPending] is a function of the mode
    alone (the configuration it is applied to plays no part), and it
    yields 0 for [MultipleInstances], 1 for
    [SingleInstanceMessagesInOrder], and 0 for every other integer. *)
Theorem mode_policy_total (config config' : nats.ConsumerConfig)
  (mode : SubscriptionMode) :
  MaxAckPending (patchConsumerConfig config mode)
    = MaxAckPending (patchConsumerConfig config' mode) /\
  MaxAckPending (patchConsumerConfig config MultipleInstances) = 0 /\
  MaxAckPending (patchConsumerConfig config SingleInstanceMessagesInOrder) = 1 /\
  (mode <> MultipleInstances ->
   mode <> SingleInstanceMessagesInOrder ->
   MaxAckPending (patchConsumerConfig config mode) = 0).
Proof.
  repeat split.
  - now rewrite !patchConsumerConfig_set.
  - intros _ Hne. rewrite patchConsumerConfig_set. simpl.
    destruct (mode =? SingleInstanceMessagesInOrder) eqn:E; [|reflexivity].
    apply Z.eqb_eq in E. contradiction.
Qed.

(** C9: [patchConsumerConfig] leaves every field but [MaxAckPending] as
    it was: the durable name, the ack policy, the ack wait and the rest of
    the configuration. *)
Theorem patchConsumerConfig_frame (config : nats.ConsumerConfig)
  (mode : SubscriptionMode) :
  Durable (patchConsumerConfig config mode) = Durable config /\
  AckPolicy (patchConsumerConfig config mode) = AckPolicy config /\
  AckWait (patchConsumerConfig config mode) = AckWait config /\
  Rest (patchConsumerConfig config mode) = Rest config /\
  patchConsumerConfig config mode
    = setMaxAckPending (MaxAckPending (patchConsumerConfig config mode)) config.
Proof.
  rewrite patchConsumerConfig_set. repeat split.
Qed.

(** ** Runs *)

Lemma run_bind {B A C : Type} (broker : Broker B) (p : Prog A)
  (f : A -> Prog C) (b : B) :
  run broker (bind p f) b =
  match run broker p b with
  | (Returned a, b', evs) =>
      let '(o, b'', evs') := run broker (f a) b' in (o, b'', evs ++ evs')
  | (Panicked msg, b', evs) => (Panicked msg, b', evs)
  end.
Proof.
  revert b. induction p as [a | c k IH | format args k IH | msg]; intro b; simpl.
  - destruct (run broker (f a) b) as [[o b''] evs']. reflexivity.
  - destruct (broker c b) as [r b1]. rewrite IH.
    destruct (run broker (k r) b1) as [[[a | msg] b2] evs]; [|reflexivity].
    destruct (run broker (f a) b2) as [[o b3] evs']. reflexivity.
  - rewrite IH.
    destruct (run broker k b) as [[[a | msg] b2] evs]; [|reflexivity].
    destruct (run broker (f a) b2) as [[o b3] evs']. reflexivity.
  - reflexivity.
Qed.

(** *** getOrAddConsumer, branch by branch *)

Section GetOrAddConsumer.
Context {B : Type} (broker : Broker B).
Variables (streamName : string) (consumerConfig : nats.ConsumerConfig).

Let lookup : jetStreamContext.call :=
  jetStreamContext.ConsumerInfo streamName (Durable consumerConfig).
Let add : jetStreamContext.call :=
  jetStreamContext.AddConsumer streamName consumerConfig.

Lemma getOrAddConsumer_match (b b' : B) (ci : nats.ConsumerInfo) :
  broker lookup b = (Ok ci, b') ->
  MaxAckPending (Config ci) = MaxAckPending consumerConfig ->
  run broker (getOrAddConsumer streamName consumerConfig) b
  = (Returned (Ok ci), b', [Called lookup]).
Proof.
  intros Hl Hm. unfold getOrAddConsumer. simpl. fold lookup. rewrite Hl.
  rewrite Hm, Z.eqb_refl. reflexivity.
Qed.

Lemma getOrAddConsumer_mismatch (b b' : B) (ci : nats.ConsumerInfo) :
  broker lookup b = (Ok ci, b') ->
  MaxAckPending (Config ci) <> MaxAckPending consumerConfig ->
  run broker (getOrAddConsumer streamName consumerConfig) b
  = (Returned (Err (driftError (Durable consumerConfig)
                               (MaxAckPending (Config ci)))),
     b', [Called lookup]).
Proof.
  intros Hl Hm. unfold getOrAddConsumer. simpl. fold lookup. rewrite Hl.
  apply Z.eqb_neq in Hm. rewrite Hm. reflexivity.
Qed.

Lemma getOrAddConsumer_lookup_fails (b b' : B) (err : error) :
  broker lookup b = (Err err, b') ->
  Contains (Error err) "consumer not found" = false ->
  run broker (getOrAddConsumer streamName consumerConfig) b
  = (Returned (Err err), b', [Called lookup]).
Proof.
  intros Hl Hc. unfold getOrAddConsumer. simpl. fold lookup. rewrite Hl.
  rewrite Hc. reflexivity.
Qed.

Lemma getOrAddConsumer_add_fails (b b' b'' : B) (err err' : error) :
  broker lookup b = (Err err, b') ->
  Contains (Error err) "consumer not found" = true ->
  broker add b' = (Err err', b'') ->
  run broker (getOrAddConsumer streamName consumerConfig) b
  = (Returned (Err (Errorf "consumer %s could not be added to stream %s: %w"
                      [AString (Durable consumerConfig); AString streamName;
                       AError err'])),
     b'', [Called lookup; Called add]).
Proof.
  intros Hl Hc Ha. unfold getOrAddConsumer. simpl. fold lookup. rewrite Hl.
  rewrite Hc. simpl. fold add. rewrite Ha. reflexivity.
Qed.

Lemma getOrAddConsumer_added (b b' b'' : B) (err : error)
  (ci : nats.ConsumerInfo) :
  broker lookup b = (Err err, b') ->
  Contains (Error err) "consumer not found" = true ->
  broker add b' = (Ok ci, b'') ->
  run broker (getOrAddConsumer streamName consumerConfig) b
  = (Returned (Ok ci), b'',
     [Called lookup; Called add;
      Logged "Consumer %s for stream %s created at %s. %d messages pending, #%d ack pending"
        [AString (Name ci); AString streamName; ATime (Created ci);
         AInt (NumPending ci); AInt (NumAckPending ci)]]).
Proof.
  intros Hl Hc Ha. unfold getOrAddConsumer. simpl. fold lookup. rewrite Hl.
  rewrite Hc. simpl. fold add. rewrite Ha. reflexivity.
Qed.

End GetOrAddConsumer.

(** ** Reconciling a consumer *)

(** C1: when the consumer exists and its stored [MaxAckPending] is not
    the one the policy gives for the requested mode, [getOrAddConsumer]
    returns the drift error, and the lookup is the only call it makes to
    the broker: nothing is added or written, and the broker is left in the
    state the lookup left it in. *)
Theorem getOrAddConsumer_drift {B : Type} (broker : Broker B) (b b' : B)
  (streamName : string) (config : nats.ConsumerConfig)
  (mode : SubscriptionMode) (ci : nats.ConsumerInfo) :
  broker (jetStreamContext.ConsumerInfo streamName (Durable config)) b
    = (Ok ci, b') ->
  MaxAckPending (Config ci)
    <> MaxAckPending (patchConsumerConfig config mode) ->
  run broker (getOrAddConsumer streamName (patchConsumerConfig config mode)) b
  = (Returned (Err (driftError (Durable config) (MaxAckPending (Config ci)))),
     b',
     [Called (jetStreamContext.ConsumerInfo streamName (Durable config))]).
Proof.
  intros Hl Hm.
  pose proof (getOrAddConsumer_mismatch broker streamName
                (patchConsumerConfig config mode) b b' ci) as Hrun.
  rewrite Durable_patchConsumerConfig in Hrun.
  exact (Hrun Hl Hm).
Qed.

(** A consumer that is found decides the result by its bound. *)
Lemma getOrAddConsumer_found {B : Type} (broker : Broker B) (b b' : B)
  (streamName : string) (consumerConfig : nats.ConsumerConfig)
  (ci : nats.ConsumerInfo) :
  broker (jetStreamContext.ConsumerInfo streamName (Durable consumerConfig)) b
    = (Ok ci, b') ->
  run broker (getOrAddConsumer streamName consumerConfig) b
  = (Returned
       (if MaxAckPending (Config ci) =? MaxAckPending consumerConfig
        then Ok ci
        else Err (driftError (Durable consumerConfig)
                             (MaxAckPending (Config ci)))),
     b',
     [Called (jetStreamContext.ConsumerInfo streamName
                (Durable consumerConfig))]).
Proof.
  intro Hl.
  destruct (Z.eqb_spec (MaxAckPending (Config ci))
              (MaxAckPending consumerConfig)) as [Hm | Hm].
  - exact (getOrAddConsumer_match broker _ _ b b' ci Hl Hm).
  - exact (getOrAddConsumer_mismatch broker _ _ b b' ci Hl Hm).
Qed.

(** After a reconciliation that succeeded, a broker that keeps its
    consumers reports the consumer with the bound of the one that was
    returned; and a consumer returned without [AddConsumer] having been
    called has the bound that was asked for. *)
Lemma reconciled_lookup {B : Type} (broker : Broker B)
  (keeps : KeepsConsumers broker) (b b1 : B) (streamName : string)
  (consumerConfig : nats.ConsumerConfig) (ci : nats.ConsumerInfo)
  (evs : list event) :
  run broker (getOrAddConsumer streamName consumerConfig) b
    = (Returned (Ok ci), b1, evs) ->
  (exists ci' b2,
     broker (jetStreamContext.ConsumerInfo streamName (Durable consumerConfig)) b1
       = (Ok ci', b2) /\
     MaxAckPending (Config ci') = MaxAckPending (Config ci)) /\
  (existsb isAddConsumer (calls evs) = false ->
   MaxAckPending (Config ci) = MaxAckPending consumerConfig).
Proof.
  intro Hrun.
  destruct (broker (jetStreamContext.ConsumerInfo streamName
                      (Durable consumerConfig)) b)
    as [[found | err] b0] eqn:Hl.
  - destruct (Z.eq_dec (MaxAckPending (Config found))
                (MaxAckPending consumerConfig)) as [Hm | Hm].
    + rewrite (getOrAddConsumer_match broker _ _ b b0 found Hl Hm) in Hrun.
      injection Hrun as <- <- _. split; [|intros _; exact Hm].
      exact (lookup_again broker keeps _ _ _ _ _ Hl).
    + rewrite (getOrAddConsumer_mismatch broker _ _ b b0 found Hl Hm) in Hrun.
      discriminate.
  - destruct (Contains (Error err) "consumer not found") eqn:Hc.
    + destruct (broker (jetStreamContext.AddConsumer streamName consumerConfig) b0)
        as [[added | err'] b0'] eqn:Ha.
      * rewrite (getOrAddConsumer_added broker _ _ b b0 b0' err added Hl Hc Ha)
          in Hrun.
        injection Hrun as <- <- <-. split; [|discriminate].
        exact (lookup_after_add broker keeps _ _ _ _ _ Ha).
      * rewrite (getOrAddConsumer_add_fails broker _ _ b b0 b0' err err'
                   Hl Hc Ha) in Hrun.
        discriminate.
    + rewrite (getOrAddConsumer_lookup_fails broker _ _ b b0 err Hl Hc) in Hrun.
      discriminate.
Qed.


Lemma driftError_text (consumer : string) (existing : SubscriptionMode) :
  driftError consumer existing
  = errorString
      ("consumer " ++ consumer ++
       " SubscriptionMode has changed. Please use the existing SubscriptionMode="
       ++ itoa existing ++ " or delete consumer")%string.
Proof. reflexivity. Qed.

(** C4, as the code has it: in every drift case the error is the text
    [consumer <name> SubscriptionMode has changed. Please use the existing
    SubscriptionMode=<n> or delete consumer], where [<name>] is the
    consumer and [<n>] the stored [MaxAckPending], read as a
    [SubscriptionMode] and printed as an integer.  It mentions the
    consumer and the existing mode, wraps no other error, and is the same
    whatever mode was requested; and when the stored value is 0 or 1, the
    mode it prints is one the policy maps to that value. *)
Theorem drift_error_names_consumer_and_existing_mode {B : Type}
  (broker : Broker B) (b b' : B) (streamName : string)
  (config : nats.ConsumerConfig) (mode : SubscriptionMode)
  (ci : nats.ConsumerInfo) :
  broker (jetStreamContext.ConsumerInfo streamName (Durable config)) b
    = (Ok ci, b') ->
  MaxAckPending (Config ci)
    <> MaxAckPending (patchConsumerConfig config mode) ->
  let existing : SubscriptionMode := MaxAckPending (Config ci) in
  exists e,
    fst (fst (run broker
      (getOrAddConsumer streamName (patchConsumerConfig config mode)) b))
      = Returned (Err e) /\
    Error e
      = ("consumer " ++ Durable config ++
         " SubscriptionMode has changed. Please use the existing SubscriptionMode="
         ++ itoa existing ++ " or delete consumer")%string /\
    Unwrap e = None /\
    mentions e (Durable config) = true /\
    mentions e ("SubscriptionMode=" ++ itoa existing) = true /\
    (existing = MultipleInstances \/ existing = SingleInstanceMessagesInOrder ->
     MaxAckPending (patchConsumerConfig config existing) = existing).
Proof.
  intros Hl Hm existing. subst existing.
  exists (driftError (Durable config) (MaxAckPending (Config ci))).
  pose proof (getOrAddConsumer_mismatch broker streamName
                (patchConsumerConfig config mode) b b' ci) as Hrun.
  rewrite Durable_patchConsumerConfig in Hrun. rewrite (Hrun Hl Hm). clear Hrun.
  rewrite driftError_text. unfold mentions. cbn [Error fst].
  repeat split.
  - apply (Contains_middle "consumer ").
  - change (" SubscriptionMode has changed. Please use the existing SubscriptionMode="
            ++ itoa (MaxAckPending (Config ci)) ++ " or delete consumer")%string
      with (" SubscriptionMode has changed. Please use the existing "
            ++ ("SubscriptionMode=" ++ itoa (MaxAckPending (Config ci)))
            ++ " or delete consumer")%string.
    rewrite <- (append_assoc (Durable config)), <- (append_assoc "consumer ").
    apply Contains_middle.
  - rewrite patchConsumerConfig_set.
    intros [-> | ->]; reflexivity.
Qed.

(** ** Lookups that fail *)

Lemma error_eqb_refl (e : error) : error_eqb e e = true.
Proof. unfold error_eqb. destruct (error_eq_dec e e); congruence. Qed.

Lemma error_eqb_neq (e e' : error) : e <> e' -> error_eqb e e' = false.
Proof. unfold error_eqb. destruct (error_eq_dec e e'); congruence. Qed.

Lemma Is_refl (e : error) : Is e e = true.
Proof. destruct e; cbn [Is]; now rewrite error_eqb_refl. Qed.

Lemma Is_wrapError (msg : string) (err : error) :
  Is (wrapError msg err) err = true.
Proof. cbn [Is]. rewrite Is_refl. apply orb_true_r. Qed.

Section GetOrAddStream.
Context {B : Type} (broker : Broker B).
Variable streamConfig : nats.StreamConfig.

Let name : string := nats.StreamConfig_Name streamConfig.
Let lookup : jetStreamContext.call := jetStreamContext.StreamInfo name.
Let add : jetStreamContext.call := jetStreamContext.AddStream streamConfig.

Lemma GetOrAddStream_found (b b' : B) (streamInfo : nats.StreamInfo) :
  broker lookup b = (Ok streamInfo, b') ->
  run broker (GetOrAddStream streamConfig) b
  = (Returned (Ok streamInfo), b', [Called lookup]).
Proof.
  intro Hl. unfold GetOrAddStream. simpl. fold name lookup. rewrite Hl.
  reflexivity.
Qed.

Lemma GetOrAddStream_lookup_fails (b b' : B) (err : error) :
  broker lookup b = (Err err, b') ->
  err <> ErrStreamNotFound ->
  run broker (GetOrAddStream streamConfig) b
  = (Returned (Err (wrapError
       ("NATS streamInfo-info could not be fetched: " ++ Error err) err)),
     b', [Called lookup]).
Proof.
  intros Hl Hne. unfold GetOrAddStream. simpl. fold name lookup. rewrite Hl.
  rewrite (error_eqb_neq _ _ Hne). cbn. rewrite append_nil_r. reflexivity.
Qed.

Lemma GetOrAddStream_not_found (b b' : B) :
  broker lookup b = (Err ErrStreamNotFound, b') ->
  exists evs,
    run broker (GetOrAddStream streamConfig) b
    = (Returned
         match fst (broker add b') with
         | Ok streamInfo => Ok streamInfo
         | Err err' =>
             Err (Errorf "streamInfo %s could not be created: %w"
                         [AString name; AError err'])
         end,
       snd (broker add b'), evs) /\
    calls evs = [lookup; add].
Proof.
  intro Hl. unfold GetOrAddStream. simpl. fold name lookup. rewrite Hl.
  simpl. fold add.
  destruct (broker add b') as [[streamInfo | err'] b'']; simpl;
    eexists; split; reflexivity.
Qed.

End GetOrAddStream.

(** C5: a lookup that fails is told apart by its kind.  For the consumer,
    an error whose text contains [consumer not found] leads to
    [AddConsumer] with the requested configuration, and its answer decides
    the result; any other error is returned as it is, after the lookup
    alone.  For the stream, [nats.ErrStreamNotFound] leads to [AddStream],
    and its answer decides the result; any other error comes back wrapped
    (so that [errors.Is] finds it), after the lookup alone. *)
Theorem lookup_failure_kinds {B : Type} (broker : Broker B) (b b' : B) :
  (forall streamName config err,
     broker (jetStreamContext.ConsumerInfo streamName (Durable config)) b
       = (Err err, b') ->
     Contains (Error err) "consumer not found" = true ->
     let add := jetStreamContext.AddConsumer streamName config in
     exists evs,
       run broker (getOrAddConsumer streamName config) b
       = (Returned
            match fst (broker add b') with
            | Ok ci => Ok ci
            | Err err' =>
                Err (Errorf "consumer %s could not be added to stream %s: %w"
                       [AString (Durable config); AString streamName;
                        AError err'])
            end,
          snd (broker add b'), evs) /\
       calls evs
       = [jetStreamContext.ConsumerInfo streamName (Durable config); add]) /\
  (forall streamName config err,
     broker (jetStreamContext.ConsumerInfo streamName (Durable config)) b
       = (Err err, b') ->
     Contains (Error err) "consumer not found" = false ->
     run broker (getOrAddConsumer streamName config) b
     = (Returned (Err err), b',
        [Called (jetStreamContext.ConsumerInfo streamName (Durable config))])) /\
  (forall streamConfig,
     broker (jetStreamContext.StreamInfo (nats.StreamConfig_Name streamConfig)) b
       = (Err ErrStreamNotFound, b') ->
     let add := jetStreamContext.AddStream streamConfig in
     exists evs,
       run broker (GetOrAddStream streamConfig) b
       = (Returned
            match fst (broker add b') with
            | Ok streamInfo => Ok streamInfo
            | Err err' =>
                Err (Errorf "streamInfo %s could not be created: %w"
                       [AString (nats.StreamConfig_Name streamConfig);
                        AError err'])
            end,
          snd (broker add b'), evs) /\
       calls evs
       = [jetStreamContext.StreamInfo (nats.StreamConfig_Name streamConfig);
          add]) /\
  (forall streamConfig err,
     broker (jetStreamContext.StreamInfo (nats.StreamConfig_Name streamConfig)) b
       = (Err err, b') ->
     err <> ErrStreamNotFound ->
     exists e,
       run broker (GetOrAddStream streamConfig) b
       = (Returned (Err e), b',
          [Called (jetStreamContext.StreamInfo
                     (nats.StreamConfig_Name streamConfig))]) /\
       Is e err = true /\
       Unwrap e = Some err).
Proof.
  split; [|split; [|split]].
  - intros streamName config err Hl Hc add.
    destruct (broker add b') as [[ci | err'] b''] eqn:Ha; cbn [fst snd].
    + rewrite (getOrAddConsumer_added broker streamName config b b' b'' err ci
                 Hl Hc Ha).
      eexists; split; reflexivity.
    + rewrite (getOrAddConsumer_add_fails broker streamName config b b' b''
                 err err' Hl Hc Ha).
      eexists; split; reflexivity.
  - intros streamName config err Hl Hc.
    exact (getOrAddConsumer_lookup_fails broker streamName config b b' err Hl Hc).
  - intros streamConfig Hl add.
    exact (GetOrAddStream_not_found broker streamConfig b b' Hl).
  - intros streamConfig err Hl Hne.
    rewrite (GetOrAddStream_lookup_fails broker streamConfig b b' err Hl Hne).
    eexists. split; [reflexivity|]. split; [apply Is_wrapError | reflexivity].
Qed.

(** ** Creating a subscription *)

(** Whatever the broker answers, [getOrAddConsumer] returns, and it calls
    the lookup, and after it at most [AddConsumer] with the configuration
    it was given. *)
Lemma getOrAddConsumer_calls {B : Type} (broker : Broker B) (b : B)
  (streamName : string) (consumerConfig : nats.ConsumerConfig) :
  exists r b' evs,
    run broker (getOrAddConsumer streamName consumerConfig) b
    = (Returned r, b', evs) /\
    (calls evs
     = [jetStreamContext.ConsumerInfo streamName (Durable consumerConfig)] \/
     calls evs
     = [jetStreamContext.ConsumerInfo streamName (Durable consumerConfig);
        jetStreamContext.AddConsumer streamName consumerConfig]).
Proof.
  destruct (broker (jetStreamContext.ConsumerInfo streamName
                      (Durable consumerConfig)) b)
    as [[ci | err] b'] eqn:Hl.
  - destruct (Z.eq_dec (MaxAckPending (Config ci)) (MaxAckPending consumerConfig))
      as [Hm | Hm].
    + rewrite (getOrAddConsumer_match broker _ _ b b' ci Hl Hm).
      do 3 eexists. split; [reflexivity | left; reflexivity].
    + rewrite (getOrAddConsumer_mismatch broker _ _ b b' ci Hl Hm).
      do 3 eexists. split; [reflexivity | left; reflexivity].
  - destruct (Contains (Error err) "consumer not found") eqn:Hc.
    + destruct (broker (jetStreamContext.AddConsumer streamName consumerConfig) b')
        as [[ci | err'] b''] eqn:Ha.
      * rewrite (getOrAddConsumer_added broker _ _ b b' b'' err ci Hl Hc Ha).
        do 3 eexists. split; [reflexivity | right; reflexivity].
      * rewrite (getOrAddConsumer_add_fails broker _ _ b b' b'' err err' Hl Hc Ha).
        do 3 eexists. split; [reflexivity | right; reflexivity].
    + rewrite (getOrAddConsumer_lookup_fails broker _ _ b b' err Hl Hc).
      do 3 eexists. split; [reflexivity | left; reflexivity].
Qed.

Lemma calls_app (evs evs' : list event) :
  calls (evs ++ evs') = calls evs ++ calls evs'.
Proof.
  induction evs as [| [c | format args] evs IH]; simpl;
    [reflexivity | now rewrite IH | exact IH].
Qed.

(** [CreateSubscription], once the stream name is known: reconcile the
    consumer, and subscribe only when that went well. *)
Lemma CreateSubscription_run {B : Type} (broker : Broker B) (b : B)
  (subject consumerName : string) (mode : SubscriptionMode)
  (streamName : string) (tokens : list string) :
  Split subject "." = streamName :: tokens ->
  let config := patchConsumerConfig (literalConfig consumerName) mode in
  let subscribe :=
    jetStreamContext.PullSubscribe subject consumerName
      (nats.Bind streamName consumerName) in
  run broker (CreateSubscription subject consumerName mode) b
  = match run broker (getOrAddConsumer streamName config) b with
    | (Returned (Err err), b', evs) => (Returned (Err err), b', evs)
    | (Returned (Ok _), b', evs) =>
        (Returned match fst (broker subscribe b') with
                  | Err err => Err err
                  | Ok sub => Ok {| streamSubscription := sub |}
                  end,
         snd (broker subscribe b'),
         evs ++ [Called subscribe])
    | (Panicked msg, b', evs) => (Panicked msg, b', evs)
    end.
Proof.
  intros Hs config subscribe. unfold CreateSubscription. rewrite Hs.
  fold (literalConfig consumerName). fold config. rewrite run_bind.
  destruct (run broker (getOrAddConsumer streamName config) b)
    as [[[[ci | err] | msg] b'] evs]; [| | reflexivity].
  - simpl. fold subscribe.
    destruct (broker subscribe b') as [[sub | err] b'']; reflexivity.
  - simpl. rewrite app_nil_r. reflexivity.
Qed.

(** C6: when reconciling the consumer fails, for whatever reason,
    [CreateSubscription] returns that very error and has done nothing
    more than the reconciliation did: [PullSubscribe] is not among its
    calls, so there is no subscription. *)
Theorem CreateSubscription_stops_when_reconciliation_fails {B : Type}
  (broker : Broker B) (b b' : B) (subject consumerName : string)
  (mode : SubscriptionMode) (streamName : string) (tokens : list string)
  (err : error) (evs : list event) :
  Split subject "." = streamName :: tokens ->
  run broker
    (getOrAddConsumer streamName
       (patchConsumerConfig (literalConfig consumerName) mode)) b
    = (Returned (Err err), b', evs) ->
  run broker (CreateSubscription subject consumerName mode) b
    = (Returned (Err err), b', evs) /\
  existsb isPullSubscribe (calls evs) = false.
Proof.
  intros Hs Hfail. split.
  - rewrite (CreateSubscription_run broker b _ _ _ _ _ Hs). cbv zeta.
    rewrite Hfail. reflexivity.
  - destruct (getOrAddConsumer_calls broker b streamName
                (patchConsumerConfig (literalConfig consumerName) mode))
      as (r & b0 & evs0 & Hrun & Hcalls).
    rewrite Hfail in Hrun. injection Hrun as _ _ <-.
    destruct Hcalls as [-> | ->]; reflexivity.
Qed.

(** The calls of [CreateSubscription] are all addressed to the first
    token of the subject, the first of them is the lookup of the consumer
    there, and the method returns. *)
Lemma CreateSubscription_on_stream {B : Type} (broker : Broker B) (b : B)
  (subject consumerName : string) (mode : SubscriptionMode)
  (streamName : string) (tokens : list string) :
  Split subject "." = streamName :: tokens ->
  exists r b' evs,
    run broker (CreateSubscription subject consumerName mode) b
    = (Returned r, b', evs) /\
    hd_error (calls evs)
    = Some (jetStreamContext.ConsumerInfo streamName consumerName) /\
    Forall (fun c => streamOf c = streamName) (calls evs).
Proof.
  intro Hs. rewrite (CreateSubscription_run broker b _ _ _ _ _ Hs). cbv zeta.
  set (config := patchConsumerConfig (literalConfig consumerName) mode).
  assert (Hd : Durable config = consumerName)
    by (unfold config; rewrite patchConsumerConfig_set; reflexivity).
  destruct (getOrAddConsumer_calls broker b streamName config)
    as (r & b' & evs & Hrun & Hcalls).
  rewrite Hrun, Hd in *.
  destruct r as [ci | err]; do 3 eexists; (split; [reflexivity|]);
    rewrite ?calls_app; destruct Hcalls as [-> | ->]; simpl;
    (split; [reflexivity | repeat constructor]).
Qed.

(** C7: the stream [CreateSubscription] works on is the text before the
    first dot of the subject: splitting gives that text as first token,
    the consumer is looked up on the stream of that name, and every call
    is addressed to it. *)
Theorem CreateSubscription_stream_before_first_dot {B : Type}
  (broker : Broker B) (b : B) (pre post consumerName : string)
  (mode : SubscriptionMode) :
  dotless pre ->
  let subject := (pre ++ "." ++ post)%string in
  hd_error (Split subject ".") = Some pre /\
  exists r b' evs,
    run broker (CreateSubscription subject consumerName mode) b
    = (Returned r, b', evs) /\
    hd_error (calls evs)
    = Some (jetStreamContext.ConsumerInfo pre consumerName) /\
    Forall (fun c => streamOf c = pre) (calls evs).
Proof.
  intros Hd subject.
  destruct (Split_first_dot pre post Hd) as (tokens & Hs).
  split.
  - unfold subject. rewrite Hs. reflexivity.
  - exact (CreateSubscription_on_stream broker b subject consumerName mode
             pre tokens Hs).
Qed.

(** C10: for a subject without a dot, splitting gives the subject itself
    as the only token, and [CreateSubscription] works on the stream of
    that name: it does not panic, it looks the consumer up there, and
    every call is addressed to it. *)
Theorem CreateSubscription_subject_without_dot {B : Type}
  (broker : Broker B) (b : B) (subject consumerName : string)
  (mode : SubscriptionMode) :
  dotless subject ->
  Split subject "." = [subject] /\
  exists r b' evs,
    run broker (CreateSubscription subject consumerName mode) b
    = (Returned r, b', evs) /\
    hd_error (calls evs)
    = Some (jetStreamContext.ConsumerInfo subject consumerName) /\
    Forall (fun c => streamOf c = subject) (calls evs).
Proof.
  intro Hd. pose proof (Split_dotless subject Hd) as Hs. split.
  - exact Hs.
  - exact (CreateSubscription_on_stream broker b subject consumerName mode
             subject [] Hs).
Qed.

(** C8: whatever the subject, the consumer name and the mode, a consumer
    configuration that [CreateSubscription] hands to the broker has the
    explicit ack policy and an ack wait of 30 seconds (and the given
    consumer name as durable name). *)
Theorem CreateSubscription_ack_settings {B : Type} (broker : Broker B)
  (b : B) (subject consumerName : string) (mode : SubscriptionMode)
  (streamName : string) (config : nats.ConsumerConfig) :
  In (jetStreamContext.AddConsumer streamName config)
     (calls (snd (run broker (CreateSubscription subject consumerName mode) b))) ->
  AckPolicy config = nats.AckExplicitPolicy /\
  AckWait config = 30 * Second /\
  AckWait config = 30000000000 /\
  Durable config = consumerName.
Proof.
  destruct (Split_nonempty subject ".") as (token & tokens & Hs).
  rewrite (CreateSubscription_run broker b _ _ _ _ _ Hs). cbv zeta.
  set (cfg := patchConsumerConfig (literalConfig consumerName) mode).
  destruct (getOrAddConsumer_calls broker b token cfg)
    as (r & b' & evs & Hrun & Hcalls).
  rewrite Hrun.
  assert (Hcfg : In (jetStreamContext.AddConsumer streamName config) (calls evs)
                 -> config = cfg).
  { destruct Hcalls as [-> | ->]; simpl; intro Hin.
    - destruct Hin as [Heq | []]. discriminate.
    - destruct Hin as [Heq | [Heq | []]]; [discriminate|].
      now injection Heq as _ <-. }
  assert (Hgoal : config = cfg ->
            AckPolicy config = nats.AckExplicitPolicy /\
            AckWait config = 30 * Second /\
            AckWait config = 30000000000 /\
            Durable config = consumerName).
  { intros ->. unfold cfg. rewrite patchConsumerConfig_set.
    repeat split. }
  destruct r as [ci | err]; cbn [snd]; intro Hin.
  - rewrite calls_app in Hin. apply in_app_or in Hin as [Hin | Hin].
    + exact (Hgoal (Hcfg Hin)).
    + simpl in Hin. destruct Hin as [Heq | []]. discriminate.
  - exact (Hgoal (Hcfg Hin)).
Qed.

End Properties.

(** * The properties at work on the in-memory broker *)

Section Instances.
#[local] Existing Instance plainTypes.

Lemma findConsumer_added (stream : string) (cfg : nats.ConsumerConfig)
  (b : memory) :
  findConsumer stream (Durable cfg)
    {| streams := streams b;
       consumers := (stream, newConsumer cfg) :: consumers b |}
  = Some (newConsumer cfg).
Proof.
  unfold findConsumer. simpl. now rewrite !String.eqb_refl.
Qed.

(** The in-memory broker keeps its consumers. *)
Lemma memoryBroker_keeps : KeepsConsumers memoryBroker.
Proof.
  split.
  - intros stream cfg b ci b' Hadd. simpl in Hadd.
    injection Hadd as <- <-.
    exists (newConsumer cfg). eexists. split; [|reflexivity].
    cbn [memoryBroker]. rewrite findConsumer_added. reflexivity.
  - intros stream consumer b ci b' Hl. cbn [memoryBroker] in Hl.
    destruct (findConsumer stream consumer b) as [found |] eqn:Hf;
      [|discriminate].
    injection Hl as <- <-.
    exists found, b. split; [|reflexivity].
    cbn [memoryBroker]. rewrite Hf. reflexivity.
Qed.

(** Consumer [C] on stream [orders] is stored with bound 0; asking for it
    in order mode is a drift. *)
Lemma getOrAddConsumer_drift_witness :
  memoryBroker (jetStreamContext.ConsumerInfo "orders" "C")
    (holding "orders" "C" 0)
    = (Ok (newConsumer (sampleConfig "C" 0)), holding "orders" "C" 0) /\
  run memoryBroker
    (getOrAddConsumer "orders"
       (patchConsumerConfig (sampleConfig "C" 0) SingleInstanceMessagesInOrder))
    (holding "orders" "C" 0)
  = (Returned (Err (driftError "C" 0)), holding "orders" "C" 0,
     [Called (jetStreamContext.ConsumerInfo "orders" "C")]).
Proof.
  split; [reflexivity|].
  apply (getOrAddConsumer_drift memoryBroker (holding "orders" "C" 0)
           (holding "orders" "C" 0) "orders" (sampleConfig "C" 0)
           SingleInstanceMessagesInOrder (newConsumer (sampleConfig "C" 0))).
  - reflexivity.
  - vm_compute. lia.
Defined.

(** The broker with a default of its own keeps its consumers too. *)
Lemma defaultingBroker_keeps : KeepsConsumers defaultingBroker.
Proof.
  split.
  - intros stream cfg b ci b' Hadd. cbn [defaultingBroker memoryBroker] in Hadd.
    injection Hadd as <- <-.
    exists (newConsumer (withDefaultBound cfg)). eexists.
    split; [|reflexivity].
    cbn [defaultingBroker memoryBroker].
    replace (Durable cfg) with (Durable (withDefaultBound cfg))
      by (unfold withDefaultBound;
          destruct (MaxAckPending cfg =? 0); reflexivity).
    rewrite findConsumer_added. reflexivity.
  - intros stream consumer b ci b' Hl.
    cbn [defaultingBroker memoryBroker] in Hl.
    destruct (findConsumer stream consumer b) as [found |] eqn:Hf;
      [|discriminate].
    injection Hl as <- <-.
    exists found, b. split; [|reflexivity].
    cbn [defaultingBroker memoryBroker]. rewrite Hf. reflexivity.
Qed.



(** Mode 7 is neither of the two named modes. *)
Lemma mode_policy_total_witness :
  7 <> MultipleInstances /\
  7 <> SingleInstanceMessagesInOrder /\
  MaxAckPending (patchConsumerConfig (sampleConfig "C" 5) 7) = 0.
Proof.
  assert (H0 : 7 <> MultipleInstances) by (vm_compute; lia).
  assert (H1 : 7 <> SingleInstanceMessagesInOrder) by (vm_compute; lia).
  split; [exact H0 | split; [exact H1 |]].
  exact (proj2 (proj2 (proj2
           (mode_policy_total (sampleConfig "C" 5) (sampleConfig "C" 5) 7)))
           H0 H1).
Defined.

(** Consumer [C] is stored with bound 1 and asked for with
    [MultipleInstances]: the error tells the consumer and the stored
    mode 1. *)
Lemma drift_error_names_consumer_and_existing_mode_witness :
  exists e,
    fst (fst (run memoryBroker
      (getOrAddConsumer "orders"
         (patchConsumerConfig (sampleConfig "C" 0) MultipleInstances))
      (holding "orders" "C" 1)))
      = Returned (Err e) /\
    Error e
      = "consumer C SubscriptionMode has changed. Please use the existing SubscriptionMode=1 or delete consumer" /\
    Unwrap e = None /\
    mentions e "C" = true /\
    mentions e "SubscriptionMode=1" = true /\
    (1 = MultipleInstances \/ 1 = SingleInstanceMessagesInOrder ->
     MaxAckPending (patchConsumerConfig (sampleConfig "C" 0) 1) = 1).
Proof.
  apply (drift_error_names_consumer_and_existing_mode memoryBroker
           (holding "orders" "C" 1) (holding "orders" "C" 1) "orders"
           (sampleConfig "C" 0) MultipleInstances
           (newConsumer (sampleConfig "C" 1))).
  - reflexivity.
  - vm_compute. lia.
Defined.

(** C4, as the claim has it, fails: with consumer [C] stored with bound
    1 and [MultipleInstances] requested, the drift error is the text
    below, which mentions neither the requested mode's number nor its
    name; and the unknown mode 2 requested instead gives the same error,
    so the requested mode cannot be read off it. *)
Lemma drift_error_omits_requested_mode :
  MaxAckPending (patchConsumerConfig (sampleConfig "C" 0) MultipleInstances)
    <> 1 /\
  run memoryBroker
    (getOrAddConsumer "orders"
       (patchConsumerConfig (sampleConfig "C" 0) MultipleInstances))
    (holding "orders" "C" 1)
  = (Returned (Err (errorString
       "consumer C SubscriptionMode has changed. Please use the existing SubscriptionMode=1 or delete consumer")),
     holding "orders" "C" 1,
     [Called (jetStreamContext.ConsumerInfo "orders" "C")]) /\
  Contains
    "consumer C SubscriptionMode has changed. Please use the existing SubscriptionMode=1 or delete consumer"
    (itoa MultipleInstances) = false /\
  Contains
    "consumer C SubscriptionMode has changed. Please use the existing SubscriptionMode=1 or delete consumer"
    "MultipleInstances" = false /\
  run memoryBroker
    (getOrAddConsumer "orders" (patchConsumerConfig (sampleConfig "C" 0) 2))
    (holding "orders" "C" 1)
  = run memoryBroker
      (getOrAddConsumer "orders"
         (patchConsumerConfig (sampleConfig "C" 0) MultipleInstances))
      (holding "orders" "C" 1).
Proof.
  split; [vm_compute; lia|]. repeat split.
Qed.

(** The read-only broker answers both lookups with its not-found error
    and refuses to add; the broker that is down answers them with a
    timeout. *)
Lemma lookup_failure_kinds_witness :
  (exists evs,
     run readOnlyBroker (getOrAddConsumer "orders" (sampleConfig "C" 0)) tt
     = (Returned (Err (wrapError
          "consumer C could not be added to stream orders: nats: permissions violation"
          (clientError "nats: permissions violation"))), tt, evs) /\
     calls evs
     = [jetStreamContext.ConsumerInfo "orders" "C";
        jetStreamContext.AddConsumer "orders" (sampleConfig "C" 0)]) /\
  run downBroker (getOrAddConsumer "orders" (sampleConfig "C" 0)) tt
  = (Returned (Err (clientError "nats: timeout")), tt,
     [Called (jetStreamContext.ConsumerInfo "orders" "C")]) /\
  (exists evs,
     run readOnlyBroker (GetOrAddStream "orders") tt
     = (Returned (Err (wrapError
          "streamInfo orders could not be created: nats: permissions violation"
          (clientError "nats: permissions violation"))), tt, evs) /\
     calls evs
     = [jetStreamContext.StreamInfo "orders";
        jetStreamContext.AddStream "orders"]) /\
  (exists e,
     run downBroker (GetOrAddStream "orders") tt
     = (Returned (Err e), tt, [Called (jetStreamContext.StreamInfo "orders")]) /\
     Is e (clientError "nats: timeout") = true /\
     Unwrap e = Some (clientError "nats: timeout")).
Proof.
  split; [|split; [|split]].
  - exact (proj1 (lookup_failure_kinds readOnlyBroker tt tt)
             "orders" (sampleConfig "C" 0)
             (clientError "nats: consumer not found") eq_refl eq_refl).
  - exact (proj1 (proj2 (lookup_failure_kinds downBroker tt tt))
             "orders" (sampleConfig "C" 0)
             (clientError "nats: timeout") eq_refl eq_refl).
  - exact (proj1 (proj2 (proj2 (lookup_failure_kinds readOnlyBroker tt tt)))
             "orders" eq_refl).
  - refine (proj2 (proj2 (proj2 (lookup_failure_kinds downBroker tt tt)))
              "orders" (clientError "nats: timeout") eq_refl _).
    discriminate.
Defined.

(** With the broker down, reconciling for subject [orders.created] fails
    with the timeout, and so does [CreateSubscription]. *)
Lemma CreateSubscription_stops_when_reconciliation_fails_witness :
  Split "orders.created" "." = ["orders"; "created"] /\
  run downBroker (CreateSubscription "orders.created" "C" MultipleInstances) tt
  = (Returned (Err (clientError "nats: timeout")), tt,
     [Called (jetStreamContext.ConsumerInfo "orders" "C")]) /\
  existsb isPullSubscribe
    (calls [Called (jetStreamContext.ConsumerInfo "orders" "C")]) = false.
Proof.
  split; [reflexivity|].
  apply (CreateSubscription_stops_when_reconciliation_fails downBroker tt tt
           "orders.created" "C" MultipleInstances "orders" ["created"]
           (clientError "nats: timeout")
           [Called (jetStreamContext.ConsumerInfo "orders" "C")]);
    reflexivity.
Defined.

(** The subject [orders.created] belongs to stream [orders]. *)
Lemma CreateSubscription_stream_before_first_dot_witness :
  dotless "orders" /\
  hd_error (Split "orders.created" ".") = Some "orders" /\
  exists r b' evs,
    run memoryBroker
      (CreateSubscription "orders.created" "C" MultipleInstances) emptyMemory
    = (Returned r, b', evs) /\
    hd_error (calls evs) = Some (jetStreamContext.ConsumerInfo "orders" "C") /\
    Forall (fun c => streamOf c = "orders") (calls evs).
Proof.
  split; [reflexivity|].
  apply (CreateSubscription_stream_before_first_dot memoryBroker emptyMemory
           "orders" "created" "C" MultipleInstances).
  reflexivity.
Defined.

(** The subject [orders] is its own stream. *)
Lemma CreateSubscription_subject_without_dot_witness :
  dotless "orders" /\
  Split "orders" "." = ["orders"] /\
  exists r b' evs,
    run memoryBroker (CreateSubscription "orders" "C" MultipleInstances)
      emptyMemory
    = (Returned r, b', evs) /\
    hd_error (calls evs) = Some (jetStreamContext.ConsumerInfo "orders" "C") /\
    Forall (fun c => streamOf c = "orders") (calls evs).
Proof.
  split; [reflexivity|].
  apply (CreateSubscription_subject_without_dot memoryBroker emptyMemory
           "orders" "C" MultipleInstances).
  reflexivity.
Defined.

(** On the empty broker [CreateSubscription] adds the consumer, with the
    configuration below. *)
Lemma CreateSubscription_ack_settings_witness :
  In (jetStreamContext.AddConsumer "orders" (sampleConfig "C" 1))
     (calls (snd (run memoryBroker
        (CreateSubscription "orders.created" "C" SingleInstanceMessagesInOrder)
        emptyMemory))) /\
  AckPolicy (sampleConfig "C" 1) = nats.AckExplicitPolicy /\
  AckWait (sampleConfig "C" 1) = 30 * Second /\
  AckWait (sampleConfig "C" 1) = 30000000000 /\
  Durable (sampleConfig "C" 1) = "C".
Proof.
  assert (Hin : In (jetStreamContext.AddConsumer "orders" (sampleConfig "C" 1))
     (calls (snd (run memoryBroker
        (CreateSubscription "orders.created" "C" SingleInstanceMessagesInOrder)
        emptyMemory)))) by (vm_compute; right; left; reflexivity).
  split; [exact Hin|].
  exact (CreateSubscription_ack_settings memoryBroker emptyMemory
           "orders.created" "C" SingleInstanceMessagesInOrder "orders"
           (sampleConfig "C" 1) Hin).
Defined.

End Instances.

(** * Further properties of the bridge *)

Section BridgeProperties.
Context `{nats.Types}.

(** ** getOrAddConsumer *)

(** X1: The calls [getOrAddConsumer] makes are decided by the answer to the
    lookup: the lookup alone, unless it failed with an error whose text
    contains [consumer not found]; then one [AddConsumer] follows, with
    the configuration passed in. *)
Theorem getOrAddConsumer_calls_by_lookup {B : Type} (broker : Broker B)
  (b : B) (streamName : string) (consumerConfig : nats.ConsumerConfig) :
  let lookup :=
    jetStreamContext.ConsumerInfo streamName (Durable consumerConfig) in
  calls (snd (run broker (getOrAddConsumer streamName consumerConfig) b))
  = match fst (broker lookup b) with
    | Ok _ => [lookup]
    | Err err =>
        if Contains (Error err) "consumer not found"
        then [lookup; jetStreamContext.AddConsumer streamName consumerConfig]
        else [lookup]
    end.
Proof.
  intro lookup.
  destruct (broker lookup b) as [[ci | err] b'] eqn:Hl; cbn [fst].
  - destruct (Z.eq_dec (MaxAckPending (Config ci)) (MaxAckPending consumerConfig))
      as [Hm | Hm].
    + now rewrite (getOrAddConsumer_match broker _ _ b b' ci Hl Hm).
    + now rewrite (getOrAddConsumer_mismatch broker _ _ b b' ci Hl Hm).
  - destruct (Contains (Error err) "consumer not found") eqn:Hc.
    + destruct (broker (jetStreamContext.AddConsumer streamName consumerConfig) b')
        as [[ci | err'] b''] eqn:Ha.
      * now rewrite (getOrAddConsumer_added broker _ _ b b' b'' err ci Hl Hc Ha).
      * now rewrite (getOrAddConsumer_add_fails broker _ _ b b' b'' err err'
                       Hl Hc Ha).
    + now rewrite (getOrAddConsumer_lookup_fails broker _ _ b b' err Hl Hc).
Qed.

(** X2: A consumer [getOrAddConsumer] returns is either the one the lookup
    found, and then its bound is the requested one and nothing else was
    called, or the one [AddConsumer] answered with after a lookup that
    said not found. *)
Theorem getOrAddConsumer_success {B : Type} (broker : Broker B) (b b' : B)
  (streamName : string) (consumerConfig : nats.ConsumerConfig)
  (ci : nats.ConsumerInfo) (evs : list event) :
  run broker (getOrAddConsumer streamName consumerConfig) b
    = (Returned (Ok ci), b', evs) ->
  let lookup :=
    jetStreamContext.ConsumerInfo streamName (Durable consumerConfig) in
  let add := jetStreamContext.AddConsumer streamName consumerConfig in
  (broker lookup b = (Ok ci, b') /\
   MaxAckPending (Config ci) = MaxAckPending consumerConfig /\
   evs = [Called lookup]) \/
  (exists err b0,
     broker lookup b = (Err err, b0) /\
     Contains (Error err) "consumer not found" = true /\
     broker add b0 = (Ok ci, b') /\
     calls evs = [lookup; add]).
Proof.
  intros Hrun lookup add.
  destruct (broker lookup b) as [[found | err] b0] eqn:Hl.
  - destruct (Z.eq_dec (MaxAckPending (Config found))
                (MaxAckPending consumerConfig)) as [Hm | Hm].
    + rewrite (getOrAddConsumer_match broker _ _ b b0 found Hl Hm) in Hrun.
      injection Hrun as <- <- <-. left. auto.
    + rewrite (getOrAddConsumer_mismatch broker _ _ b b0 found Hl Hm) in Hrun.
      discriminate.
  - destruct (Contains (Error err) "consumer not found") eqn:Hc.
    + destruct (broker add b0) as [[added | err'] b1] eqn:Ha.
      * rewrite (getOrAddConsumer_added broker _ _ b b0 b1 err added Hl Hc Ha)
          in Hrun.
        injection Hrun as <- <- <-. right. exists err, b0. auto.
      * rewrite (getOrAddConsumer_add_fails broker _ _ b b0 b1 err err'
                   Hl Hc Ha) in Hrun.
        discriminate.
    + rewrite (getOrAddConsumer_lookup_fails broker _ _ b b0 err Hl Hc) in Hrun.
      discriminate.
Qed.

(** X3: When the consumer exists, only the durable name and the bound of the
    requested configuration count: two configurations that agree on
    these give the same run, whatever their ack policy, ack wait and
    other fields. *)
Theorem getOrAddConsumer_existing_compares_bound_only {B : Type}
  (broker : Broker B) (b b' : B) (streamName : string)
  (config config' : nats.ConsumerConfig) (ci : nats.ConsumerInfo) :
  Durable config = Durable config' ->
  MaxAckPending config = MaxAckPending config' ->
  broker (jetStreamContext.ConsumerInfo streamName (Durable config)) b
    = (Ok ci, b') ->
  run broker (getOrAddConsumer streamName config) b
  = run broker (getOrAddConsumer streamName config') b.
Proof.
  intros Hd Hm Hl. pose proof Hl as Hl'. rewrite Hd in Hl'.
  destruct (Z.eq_dec (MaxAckPending (Config ci)) (MaxAckPending config))
    as [He | Hne].
  - rewrite (getOrAddConsumer_match broker _ _ b b' ci Hl He).
    rewrite Hm in He.
    rewrite (getOrAddConsumer_match broker _ _ b b' ci Hl' He).
    now rewrite Hd.
  - rewrite (getOrAddConsumer_mismatch broker _ _ b b' ci Hl Hne).
    rewrite Hm in Hne.
    rewrite (getOrAddConsumer_mismatch broker _ _ b b' ci Hl' Hne).
    now rewrite Hd.
Qed.

(** X4: When [AddConsumer] fails, the error returned wraps the broker's
    error, and its text gives the consumer, the stream and the broker's
    text. *)
Theorem getOrAddConsumer_add_failure_wrapped {B : Type} (broker : Broker B)
  (b b1 b2 : B) (streamName : string) (consumerConfig : nats.ConsumerConfig)
  (err err' : error) :
  broker (jetStreamContext.ConsumerInfo streamName (Durable consumerConfig)) b
    = (Err err, b1) ->
  Contains (Error err) "consumer not found" = true ->
  broker (jetStreamContext.AddConsumer streamName consumerConfig) b1
    = (Err err', b2) ->
  exists e,
    fst (fst (run broker (getOrAddConsumer streamName consumerConfig) b))
      = Returned (Err e) /\
    Unwrap e = Some err' /\
    Is e err' = true /\
    Error e
      = ("consumer " ++ Durable consumerConfig ++ " could not be added to stream "
         ++ streamName ++ ": " ++ Error err')%string /\
    mentions e (Durable consumerConfig) = true /\
    mentions e streamName = true.
Proof.
  intros Hl Hc Ha.
  rewrite (getOrAddConsumer_add_fails broker _ _ b b1 b2 err err' Hl Hc Ha).
  eexists. split; [reflexivity|].
  assert (Htext :
    Sprintf "consumer %s could not be added to stream %s: %w"
      [AString (Durable consumerConfig); AString streamName; AError err']
    = ("consumer " ++ Durable consumerConfig ++ " could not be added to stream "
       ++ streamName ++ ": " ++ Error err')%string).
  { cbn. now rewrite append_nil_r. }
  unfold Errorf, mentions. cbn [wrapped]. cbn [Ascii.eqb Bool.eqb].
  cbn [Unwrap Error]. rewrite Is_wrapError, Htext.
  repeat split.
  - apply (Contains_middle "consumer ").
  - rewrite <- (append_assoc (Durable consumerConfig)),
      <- (append_assoc "consumer ").
    apply Contains_middle.
Qed.

(** X5: Against a broker that keeps its consumers, once a consumer
    has been reconciled, asking for it in a mode whose bound differs
    from the bound of the consumer that was returned fails with the
    drift error, which gives that consumer's bound; the lookup is the
    only call.  The bound given is the one the broker holds, which is
    the earlier mode's only if the broker stored it as it was sent. *)
Theorem getOrAddConsumer_mode_switch_drifts {B : Type} (broker : Broker B)
  (keeps : KeepsConsumers broker) (b b1 : B) (streamName : string)
  (config : nats.ConsumerConfig) (mode mode' : SubscriptionMode)
  (ci : nats.ConsumerInfo) (evs : list event) :
  run broker (getOrAddConsumer streamName (patchConsumerConfig config mode)) b
    = (Returned (Ok ci), b1, evs) ->
  MaxAckPending (Config ci)
    <> MaxAckPending (patchConsumerConfig config mode') ->
  exists b2,
    run broker (getOrAddConsumer streamName (patchConsumerConfig config mode')) b1
    = (Returned (Err (driftError (Durable config) (MaxAckPending (Config ci)))),
       b2,
       [Called (jetStreamContext.ConsumerInfo streamName (Durable config))]).
Proof.
  intros Hfirst Hne.
  destruct (reconciled_lookup broker keeps b b1 streamName _ ci evs Hfirst)
    as [(ci' & b2 & Hl & Hm) _].
  rewrite Durable_patchConsumerConfig in Hl.
  exists b2.
  pose proof (getOrAddConsumer_mismatch broker streamName
                (patchConsumerConfig config mode') b1 b2 ci') as Hrun.
  rewrite Durable_patchConsumerConfig in Hrun.
  rewrite <- Hm. apply Hrun; [exact Hl | congruence].
Qed.

(** ** GetOrAddStream *)

(** X6: The calls [GetOrAddStream] makes are decided by the answer to the
    lookup: the lookup alone, unless it failed with
    [nats.ErrStreamNotFound] itself; then one [AddStream] follows, with
    the configuration passed in. *)
Theorem GetOrAddStream_calls_by_lookup {B : Type} (broker : Broker B)
  (b : B) (streamConfig : nats.StreamConfig) :
  let lookup :=
    jetStreamContext.StreamInfo (nats.StreamConfig_Name streamConfig) in
  calls (snd (run broker (GetOrAddStream streamConfig) b))
  = match fst (broker lookup b) with
    | Ok _ => [lookup]
    | Err err =>
        if error_eqb err ErrStreamNotFound
        then [lookup; jetStreamContext.AddStream streamConfig]
        else [lookup]
    end.
Proof.
  intro lookup.
  destruct (broker lookup b) as [[streamInfo | err] b'] eqn:Hl; cbn [fst].
  - now rewrite (GetOrAddStream_found broker streamConfig b b' streamInfo Hl).
  - destruct (error_eq_dec err ErrStreamNotFound) as [-> | Hne].
    + rewrite error_eqb_refl.
      destruct (GetOrAddStream_not_found broker streamConfig b b' Hl)
        as (evs & Hrun & Hcalls).
      rewrite Hrun. exact Hcalls.
    + rewrite (error_eqb_neq _ _ Hne).
      now rewrite (GetOrAddStream_lookup_fails broker streamConfig b b' err
                     Hl Hne).
Qed.

(** X7: When [AddStream] fails, the error returned wraps the broker's error,
    and its text gives the stream and the broker's text. *)
Theorem GetOrAddStream_add_failure_wrapped {B : Type} (broker : Broker B)
  (b b1 b2 : B) (streamConfig : nats.StreamConfig) (err' : error) :
  let name := nats.StreamConfig_Name streamConfig in
  broker (jetStreamContext.StreamInfo name) b = (Err ErrStreamNotFound, b1) ->
  broker (jetStreamContext.AddStream streamConfig) b1 = (Err err', b2) ->
  exists e,
    fst (run broker (GetOrAddStream streamConfig) b) = (Returned (Err e), b2) /\
    Unwrap e = Some err' /\
    Is e err' = true /\
    Error e
      = ("streamInfo " ++ name ++ " could not be created: " ++ Error err')%string /\
    mentions e name = true.
Proof.
  intros name Hl Ha.
  destruct (GetOrAddStream_not_found broker streamConfig b b1 Hl)
    as (evs & Hrun & _).
  rewrite Hrun, Ha. cbn [fst snd]. fold name.
  eexists. split; [reflexivity|].
  assert (Htext :
    Sprintf "streamInfo %s could not be created: %w" [AString name; AError err']
    = ("streamInfo " ++ name ++ " could not be created: " ++ Error err')%string).
  { cbn. now rewrite append_nil_r. }
  unfold Errorf, mentions. cbn [wrapped]. cbn [Ascii.eqb Bool.eqb].
  cbn [Unwrap Error]. rewrite Is_wrapError, Htext.
  repeat split.
  apply (Contains_middle "streamInfo ").
Qed.

(** X8: Against a broker that keeps its streams, [GetOrAddStream] called
    again after it succeeded finds the stream: it returns what the
    lookup answers and makes no other call and writes no log line. *)
Theorem GetOrAddStream_idempotent {B : Type} (broker : Broker B)
  (keeps : KeepsStreams broker) (b b1 : B) (streamConfig : nats.StreamConfig)
  (streamInfo : nats.StreamInfo) (evs : list event) :
  run broker (GetOrAddStream streamConfig) b
    = (Returned (Ok streamInfo), b1, evs) ->
  exists streamInfo' b2,
    broker (jetStreamContext.StreamInfo (nats.StreamConfig_Name streamConfig)) b1
      = (Ok streamInfo', b2) /\
    run broker (GetOrAddStream streamConfig) b1
    = (Returned (Ok streamInfo'), b2,
       [Called (jetStreamContext.StreamInfo
                  (nats.StreamConfig_Name streamConfig))]).
Proof.
  intro Hfirst.
  assert (Hagain : exists streamInfo' b2,
    broker (jetStreamContext.StreamInfo (nats.StreamConfig_Name streamConfig)) b1
      = (Ok streamInfo', b2)).
  { destruct (broker (jetStreamContext.StreamInfo
                        (nats.StreamConfig_Name streamConfig)) b)
      as [[found | err] b0] eqn:Hl.
    - rewrite (GetOrAddStream_found broker streamConfig b b0 found Hl) in Hfirst.
      injection Hfirst as _ <- _.
      exact (stream_again broker keeps _ _ _ _ Hl).
    - destruct (error_eq_dec err ErrStreamNotFound) as [-> | Hne].
      + destruct (GetOrAddStream_not_found broker streamConfig b b0 Hl)
          as (evs' & Hrun & _).
        rewrite Hrun in Hfirst.
        destruct (broker (jetStreamContext.AddStream streamConfig) b0)
          as [[added | err'] b0'] eqn:Ha; cbn [fst snd] in Hfirst;
          [|discriminate].
        injection Hfirst as _ <- _.
        exact (stream_after_add broker keeps _ _ _ _ Ha).
      + rewrite (GetOrAddStream_lookup_fails broker streamConfig b b0 err
                   Hl Hne) in Hfirst.
        discriminate. }
  destruct Hagain as (streamInfo' & b2 & Hl').
  exists streamInfo', b2. split; [exact Hl'|].
  exact (GetOrAddStream_found broker streamConfig b1 b2 streamInfo' Hl').
Qed.

(** ** CreateSubscription *)

(** Every subject is its first token, or its first token, a dot and
    what follows; the first token has no dot. *)
Lemma first_token (subject : string) :
  exists streamName tokens,
    Split subject "." = streamName :: tokens /\
    dotless streamName /\
    (subject = streamName \/
     exists post, subject = (streamName ++ "." ++ post)%string).
Proof.
  assert (Hcases : dotless subject \/
            exists pre post,
              dotless pre /\ subject = (pre ++ "." ++ post)%string).
  { induction subject as [| c rest IH].
    - left. reflexivity.
    - destruct (Ascii.eqb "." c) eqn:Hc.
      + right. exists "", rest. split; [reflexivity|].
        apply Ascii.eqb_eq in Hc. now subst c.
      + destruct IH as [Hd | (pre & post & Hd & ->)].
        * left. unfold dotless, hasDot in *.
          cbn [list_ascii_of_string existsb]. now rewrite Hc, Hd.
        * right. exists (String c pre), post. split; [|reflexivity].
          unfold dotless, hasDot in *.
          cbn [list_ascii_of_string existsb]. now rewrite Hc, Hd. }
  destruct Hcases as [Hd | (pre & post & Hd & ->)].
  - exists subject, []. split; [exact (Split_dotless subject Hd)|].
    split; [exact Hd | now left].
  - destruct (Split_first_dot pre post Hd) as (tokens & Hs).
    exists pre, tokens. split; [exact Hs|]. split; [exact Hd|].
    right. now exists post.
Qed.

(** X9: [CreateSubscription] returns for every subject, the empty one and
    one that starts with a dot included: the stream it works on is the
    part of the subject before its first dot (all of it when there is
    none), its first call is the lookup of the consumer there, and all
    its calls are addressed to that stream. *)
Theorem CreateSubscription_returns {B : Type} (broker : Broker B) (b : B)
  (subject consumerName : string) (mode : SubscriptionMode) :
  exists streamName r b' evs,
    dotless streamName /\
    (subject = streamName \/
     exists post, subject = (streamName ++ "." ++ post)%string) /\
    run broker (CreateSubscription subject consumerName mode) b
    = (Returned r, b', evs) /\
    hd_error (calls evs)
    = Some (jetStreamContext.ConsumerInfo streamName consumerName) /\
    Forall (fun c => streamOf c = streamName) (calls evs).
Proof.
  destruct (first_token subject) as (streamName & tokens & Hs & Hd & Hshape).
  destruct (CreateSubscription_on_stream broker b subject consumerName mode
              streamName tokens Hs) as (r & b' & evs & Hrun).
  exists streamName, r, b', evs. auto.
Qed.

(** X10: A mode other than [SingleInstanceMessagesInOrder] is treated as
    [MultipleInstances] throughout: the two calls are the same
    program. *)
Theorem CreateSubscription_other_modes_as_MultipleInstances
  (subject consumerName : string) (mode : SubscriptionMode) :
  mode <> SingleInstanceMessagesInOrder ->
  CreateSubscription subject consumerName mode
  = CreateSubscription subject consumerName MultipleInstances.
Proof.
  intro Hne. unfold CreateSubscription.
  rewrite !patchConsumerConfig_set.
  apply Z.eqb_neq in Hne. rewrite Hne. reflexivity.
Qed.

(** X11: When [CreateSubscription] returns a subscription, the consumer was
    reconciled without error, [PullSubscribe] was then called, once and
    last, for the subject and the consumer name and bound to the stream
    and the consumer, and the subscription holds what it answered. *)
Theorem CreateSubscription_success {B : Type} (broker : Broker B) (b b' : B)
  (subject consumerName : string) (mode : SubscriptionMode)
  (streamName : string) (tokens : list string)
  (subscription : natsSubscription) (evs : list event) :
  Split subject "." = streamName :: tokens ->
  run broker (CreateSubscription subject consumerName mode) b
    = (Returned (Ok subscription), b', evs) ->
  let subscribe :=
    jetStreamContext.PullSubscribe subject consumerName
      (nats.Bind streamName consumerName) in
  exists ci b1 evs0,
    run broker
      (getOrAddConsumer streamName
         (patchConsumerConfig (literalConfig consumerName) mode)) b
      = (Returned (Ok ci), b1, evs0) /\
    broker subscribe b1 = (Ok (streamSubscription subscription), b') /\
    evs = evs0 ++ [Called subscribe] /\
    existsb isPullSubscribe (calls evs0) = false.
Proof.
  intros Hs Hrun subscribe.
  rewrite (CreateSubscription_run broker b _ _ _ _ _ Hs) in Hrun.
  cbv zeta in Hrun. fold subscribe in Hrun.
  set (config := patchConsumerConfig (literalConfig consumerName) mode) in *.
  destruct (getOrAddConsumer_calls broker b streamName config)
    as (r & b1 & evs0 & Hrec & Hcalls).
  rewrite Hrec in Hrun.
  destruct r as [ci | err]; [|discriminate].
  destruct (broker subscribe b1) as [[sub | err] b2] eqn:Hsub;
    cbn [fst snd] in Hrun; [|discriminate].
  injection Hrun as <- <- <-.
  exists ci, b1, evs0.
  split; [exact Hrec|]. split; [exact Hsub|]. split; [reflexivity|].
  destruct Hcalls as [-> | ->]; reflexivity.
Qed.

(** X12: When the consumer is reconciled and [PullSubscribe] then fails,
    [CreateSubscription] returns that error as it is; the calls are
    those of the reconciliation followed by the [PullSubscribe], so a
    consumer added on the way stays with the broker. *)
Theorem CreateSubscription_subscribe_fails {B : Type} (broker : Broker B)
  (b b1 b2 : B) (subject consumerName : string) (mode : SubscriptionMode)
  (streamName : string) (tokens : list string) (ci : nats.ConsumerInfo)
  (evs0 : list event) (err : error) :
  Split subject "." = streamName :: tokens ->
  run broker
    (getOrAddConsumer streamName
       (patchConsumerConfig (literalConfig consumerName) mode)) b
    = (Returned (Ok ci), b1, evs0) ->
  let subscribe :=
    jetStreamContext.PullSubscribe subject consumerName
      (nats.Bind streamName consumerName) in
  broker subscribe b1 = (Err err, b2) ->
  run broker (CreateSubscription subject consumerName mode) b
  = (Returned (Err err), b2, evs0 ++ [Called subscribe]).
Proof.
  intros Hs Hrec subscribe Hsub.
  rewrite (CreateSubscription_run broker b _ _ _ _ _ Hs). cbv zeta.
  fold subscribe. rewrite Hrec, Hsub. reflexivity.
Qed.

(** X13: Against a broker that keeps its consumers, also when
    subscribing, [CreateSubscription] repeated with the same subject,
    consumer and mode after it succeeded does not add the consumer
    again: its first call finds the consumer, with the bound of the
    consumer the first call had reconciled.  When that bound is the one
    the mode asks for, it goes on to subscribe, and these two are all
    its calls; otherwise it returns the drift error after the lookup
    alone. *)
Theorem CreateSubscription_again {B : Type} (broker : Broker B)
  (keeps : KeepsConsumers broker) (quiet : SubscribeKeepsConsumers broker)
  (b b' : B) (subject consumerName : string) (mode : SubscriptionMode)
  (streamName : string) (tokens : list string)
  (subscription : natsSubscription) (evs : list event) :
  Split subject "." = streamName :: tokens ->
  run broker (CreateSubscription subject consumerName mode) b
    = (Returned (Ok subscription), b', evs) ->
  let config := patchConsumerConfig (literalConfig consumerName) mode in
  let lookup := jetStreamContext.ConsumerInfo streamName consumerName in
  let subscribe :=
    jetStreamContext.PullSubscribe subject consumerName
      (nats.Bind streamName consumerName) in
  exists ci0 b0 evs0 ci b1,
    run broker (getOrAddConsumer streamName config) b
      = (Returned (Ok ci0), b0, evs0) /\
    broker lookup b' = (Ok ci, b1) /\
    MaxAckPending (Config ci) = MaxAckPending (Config ci0) /\
    run broker (CreateSubscription subject consumerName mode) b'
    = if MaxAckPending (Config ci) =? MaxAckPending config
      then
        (Returned match fst (broker subscribe b1) with
                  | Err err => Err err
                  | Ok sub => Ok {| streamSubscription := sub |}
                  end,
         snd (broker subscribe b1),
         [Called lookup; Called subscribe])
      else
        (Returned (Err (driftError consumerName (MaxAckPending (Config ci)))),
         b1, [Called lookup]).
Proof.
  intros Hs Hrun config lookup subscribe.
  rewrite (CreateSubscription_run broker b _ _ _ _ _ Hs) in Hrun.
  cbv zeta in Hrun. fold subscribe config in Hrun.
  assert (Hd : Durable config = consumerName)
    by (unfold config; now rewrite Durable_patchConsumerConfig).
  destruct (run broker (getOrAddConsumer streamName config) b)
    as [[[[ci0 | err] | msg] b0] evs0] eqn:Hrec; try discriminate.
  injection Hrun as _ Hb' _.
  destruct (reconciled_lookup broker keeps b b0 streamName config ci0 evs0 Hrec)
    as [(ci1 & b01 & Hl1 & Hm1) _].
  destruct (broker subscribe b0) as [r b0'] eqn:Hsub. cbn [snd] in Hb'.
  subst b0'.
  destruct (quiet _ _ _ _ _ _ _ _ _ _ Hsub Hl1) as (ci & b1 & Hl & Hm).
  rewrite Hd in Hl. exists ci0, b0, evs0, ci, b1.
  split; [reflexivity|]. split; [exact Hl|]. split; [congruence|].
  rewrite (CreateSubscription_run broker b' _ _ _ _ _ Hs). cbv zeta.
  fold subscribe config.
  pose proof (getOrAddConsumer_found broker b' b1 streamName config ci) as Hgo.
  rewrite Hd in Hgo. rewrite (Hgo Hl). unfold lookup.
  destruct (MaxAckPending (Config ci) =? MaxAckPending config); reflexivity.
Qed.

End BridgeProperties.

(** * The test helper [cmpStringSlicesIgnoreOrder] *)

Section TestHelper.

(** ** Array cells *)

Lemma length_setCell (array : list string) (i : nat) (v : string) :
  List.length (setCell array i v) = List.length array.
Proof.
  revert i. induction array as [| x rest IH]; intros [| i]; simpl;
    try reflexivity.
  now rewrite IH.
Qed.

Lemma nth_setCell_other (array : list string) (i j : nat) (v d : string) :
  j <> i -> nth j (setCell array i v) d = nth j array d.
Proof.
  revert i j. induction array as [| x rest IH]; intros [| i] [| j] Hne; simpl;
    try reflexivity.
  - contradiction.
  - apply IH. congruence.
Qed.

Lemma setCell_app (before : list string) (x : string) (after : list string)
  (v : string) :
  setCell (before ++ x :: after) (List.length before) v = before ++ v :: after.
Proof.
  induction before as [| y before IH]; simpl; [reflexivity | now rewrite IH].
Qed.

Lemma last_cons_any (l : list string) (x d d' : string) :
  last (x :: l) d = last (x :: l) d'.
Proof.
  revert x. induction l as [| y l IH]; intro x; [reflexivity|].
  change (last (y :: l) d = last (y :: l) d'). apply IH.
Qed.

Lemma nth_length_cons (l : list string) (x d : string) :
  nth (List.length l) (x :: l) d = last l x.
Proof.
  revert x. induction l as [| y l IH]; intro x; [reflexivity|].
  change (nth (List.length (y :: l)) (x :: y :: l) d)
    with (nth (List.length l) (y :: l) d).
  rewrite IH. destruct l as [| z l]; [reflexivity|].
  change (last (y :: z :: l) x) with (last (z :: l) x).
  apply last_cons_any.
Qed.

(** ** One step and one pass of the inner loop *)

Lemma dropIfEqual_other (expectedMsg : string) (idx : nat) (s : stringSlice) :
  nth idx (backing s) "" <> expectedMsg ->
  dropIfEqual expectedMsg idx s = Returned s.
Proof.
  intro Hne. unfold dropIfEqual.
  destruct (String.eqb_spec expectedMsg (nth idx (backing s) ""));
    [congruence | reflexivity].
Qed.

Lemma dropIfEqual_equal (expectedMsg : string) (idx : nat)
  (array : list string) (len : nat) :
  nth idx array "" = expectedMsg ->
  (idx < len)%nat ->
  (len <= List.length array)%nat ->
  dropIfEqual expectedMsg idx (sliceOf array len)
  = Returned (sliceOf (setCell array idx (nth (len - 1) array "")) (len - 1)).
Proof.
  intros Heq Hidx Hlen. unfold dropIfEqual.
  cbn [backing sliceLen]. rewrite Heq, String.eqb_refl.
  unfold getIndex. cbn [sliceLen backing].
  replace ((0 <=? Z.of_nat len - 1) && (Z.of_nat len - 1 <? Z.of_nat len))
    with true by (symmetry; apply andb_true_iff; split;
                  [apply Z.leb_le | apply Z.ltb_lt]; lia).
  cbn [andThen setIndex].
  replace (idx <? len)%nat with true by (symmetry; apply Nat.ltb_lt; lia).
  cbn [andThen sliceTo sliceLen]. rewrite length_setCell.
  replace ((0 <=? Z.of_nat len - 1)
           && (Z.of_nat len - 1 <=? Z.of_nat (List.length array)))
    with true by (symmetry; apply andb_true_iff; split; apply Z.leb_le; lia).
  replace (Z.to_nat (Z.of_nat len - 1)) with (len - 1)%nat by lia.
  reflexivity.
Qed.

(** On a match the step shortens the slice by one, or panics. *)
Lemma dropIfEqual_equal_cases (expectedMsg : string) (idx : nat)
  (array : list string) (len : nat) :
  nth idx array "" = expectedMsg ->
  (exists msg,
     dropIfEqual expectedMsg idx (sliceOf array len) = Panicked msg) \/
  ((idx < len)%nat /\
   dropIfEqual expectedMsg idx (sliceOf array len)
   = Returned (sliceOf (setCell array idx (nth (len - 1) array "")) (len - 1))).
Proof.
  intro Heq. unfold dropIfEqual.
  cbn [backing sliceLen]. rewrite Heq, String.eqb_refl.
  unfold getIndex. cbn [sliceLen backing].
  destruct ((0 <=? Z.of_nat len - 1) && (Z.of_nat len - 1 <? Z.of_nat len))
    eqn:Hget; [|left; eexists; reflexivity].
  cbn [andThen setIndex].
  destruct (idx <? len)%nat eqn:Hidx; [|left; eexists; reflexivity].
  cbn [andThen sliceTo sliceLen]. rewrite length_setCell.
  destruct ((0 <=? Z.of_nat len - 1)
            && (Z.of_nat len - 1 <=? Z.of_nat (List.length array)))
    eqn:Hslice; [|left; eexists; reflexivity].
  right. apply Nat.ltb_lt in Hidx. split; [exact Hidx|].
  replace (Z.to_nat (Z.of_nat len - 1)) with (len - 1)%nat by lia.
  reflexivity.
Qed.

Lemma rangeReceived_app (expectedMsg : string) (idxs idxs' : list nat)
  (s : stringSlice) :
  rangeReceived expectedMsg (idxs ++ idxs') s
  = andThen (rangeReceived expectedMsg idxs s) (rangeReceived expectedMsg idxs').
Proof.
  revert s. induction idxs as [| idx idxs IH]; intro s; simpl; [reflexivity|].
  destruct (dropIfEqual expectedMsg idx s) as [s' | msg]; simpl;
    [apply IH | reflexivity].
Qed.

Lemma rangeReceived_none (expectedMsg : string) (idxs : list nat)
  (s : stringSlice) :
  (forall idx, In idx idxs -> nth idx (backing s) "" <> expectedMsg) ->
  rangeReceived expectedMsg idxs s = Returned s.
Proof.
  induction idxs as [| idx idxs IH]; intro Hno; simpl; [reflexivity|].
  rewrite dropIfEqual_other by (apply Hno; now left).
  simpl. apply IH. intros j Hj. apply Hno. now right.
Qed.

(** ** Received messages that are all different *)

Lemma firstn_length_app (l rest : list string) :
  firstn (List.length l) (l ++ rest) = l.
Proof.
  induction l as [| x l IH]; simpl; [destruct rest; reflexivity|].
  now rewrite IH.
Qed.

Lemma nth_app_left (l rest : list string) (i : nat) (d : string) :
  (i < List.length l)%nat -> nth i (l ++ rest) d = nth i l d.
Proof. intro Hi. now apply app_nth1. Qed.

(** The swap that removes one element keeps the others. *)
Lemma swap_remove_permutation (l2 junk : list string) (e : string) :
  Permutation (firstn (List.length l2) (last l2 e :: l2 ++ junk)) l2.
Proof.
  destruct l2 as [| y l2t]; [constructor|].
  destruct (@exists_last _ (y :: l2t)) as (l2' & z & ->); [discriminate|].
  rewrite last_last, length_app. simpl List.length.
  rewrite Nat.add_1_r. cbn [firstn].
  rewrite <- app_assoc, firstn_length_app.
  apply Permutation_cons_append.
Qed.

(** One pass for a message that is among distinct received ones. *)
Lemma rangeReceived_present (expectedMsg : string) (l1 l2 junk : list string) :
  NoDup (l1 ++ expectedMsg :: l2) ->
  rangeReceived expectedMsg (seq 0 (List.length (l1 ++ expectedMsg :: l2)))
    (sliceOf ((l1 ++ expectedMsg :: l2) ++ junk)
             (List.length (l1 ++ expectedMsg :: l2)))
  = Returned (sliceOf (l1 ++ last l2 expectedMsg :: l2 ++ junk)
                      (List.length (l1 ++ l2))).
Proof.
  intro Hnd.
  pose proof (NoDup_remove_2 _ _ _ Hnd) as Hout.
  assert (Hout1 : ~ In expectedMsg l1)
    by (intro Hin; apply Hout, in_or_app; now left).
  assert (Hout2 : ~ In expectedMsg l2)
    by (intro Hin; apply Hout, in_or_app; now right).
  rewrite length_app. cbn [List.length].
  rewrite seq_app. cbn [seq Nat.add].
  rewrite rangeReceived_app.
  rewrite rangeReceived_none.
  2:{ intros idx Hidx. apply in_seq in Hidx. cbn [backing].
      rewrite <- app_assoc, nth_app_left by lia.
      intro Heq. apply Hout1. rewrite <- Heq. apply nth_In. lia. }
  cbn [andThen rangeReceived].
  rewrite <- app_assoc. cbn [app].
  rewrite dropIfEqual_equal.
  2:{ rewrite app_nth2 by lia. now rewrite Nat.sub_diag. }
  2,3: rewrite ?length_app; cbn [List.length]; rewrite ?length_app; lia.
  cbn [andThen].
  replace (nth (List.length l1 + S (List.length l2) - 1)
               (l1 ++ expectedMsg :: l2 ++ junk) "")
    with (last l2 expectedMsg).
  2:{ rewrite app_nth2 by lia.
      replace (List.length l1 + S (List.length l2) - 1 - List.length l1)%nat
        with (List.length l2) by lia.
      change (expectedMsg :: l2 ++ junk) with ((expectedMsg :: l2) ++ junk).
      rewrite nth_app_left by (cbn [List.length]; lia).
      symmetry. apply nth_length_cons. }
  rewrite setCell_app.
  replace (List.length l1 + S (List.length l2) - 1)%nat
    with (List.length (l1 ++ l2)) by (rewrite length_app; lia).
  apply rangeReceived_none.
  intros idx Hidx. apply in_seq in Hidx. cbn [backing].
  rewrite app_nth2 by lia.
  destruct (idx - List.length l1)%nat as [| k] eqn:Hk; [lia|].
  cbn [nth]. rewrite nth_app_left by lia.
  intro Heq. apply Hout2. rewrite <- Heq. apply nth_In. lia.
Qed.

(** The two loops on distinct received messages: what is left are the
    received messages that are not expected, still distinct. *)
Lemma dropExpected_distinct (expectedMessages l junk : list string) :
  NoDup l ->
  exists l' junk',
    dropExpected expectedMessages (sliceOf (l ++ junk) (List.length l))
    = Returned (sliceOf (l' ++ junk') (List.length l')) /\
    NoDup l' /\
    forall x, In x l' <-> In x l /\ ~ In x expectedMessages.
Proof.
  revert l junk.
  induction expectedMessages as [| expectedMsg rest IH]; intros l junk Hnd.
  - exists l, junk. split; [reflexivity|]. split; [exact Hnd|].
    intro x. simpl. tauto.
  - cbn [dropExpected sliceLen].
    destruct (in_dec string_dec expectedMsg l) as [Hin | Hout].
    + apply in_split in Hin as (l1 & l2 & ->).
      rewrite (rangeReceived_present expectedMsg l1 l2 junk Hnd).
      cbn [andThen].
      set (array := l1 ++ last l2 expectedMsg :: l2 ++ junk).
      set (k := List.length (l1 ++ l2)).
      assert (Hk : (k <= List.length array)%nat).
      { unfold k, array. rewrite !length_app. cbn [List.length].
        rewrite length_app. lia. }
      assert (Hperm : Permutation (firstn k array) (l1 ++ l2)).
      { unfold k, array. rewrite length_app, firstn_app_2.
        apply Permutation_app_head, swap_remove_permutation. }
      replace (sliceOf array k)
        with (sliceOf (firstn k array ++ skipn k array)
                      (List.length (firstn k array)))
        by (rewrite firstn_skipn, length_firstn, Nat.min_l by exact Hk;
            reflexivity).
      pose proof (NoDup_remove_1 _ _ _ Hnd) as Hnd12.
      pose proof (NoDup_remove_2 _ _ _ Hnd) as Hout.
      assert (Hnd' : NoDup (firstn k array))
        by (apply (Permutation_NoDup (Permutation_sym Hperm)), Hnd12).
      destruct (IH (firstn k array) (skipn k array) Hnd')
        as (l' & junk' & Hrun & Hnd'' & Hmem).
      exists l', junk'. split; [exact Hrun|]. split; [exact Hnd''|].
      intro x. rewrite Hmem. cbn [In].
      split.
      * intros [Hx Hrest].
        apply (Permutation_in _ Hperm) in Hx.
        split.
        -- apply in_app_or in Hx. apply in_or_app.
           destruct Hx; [now left | right; now right].
        -- intros [<- | Hr]; [now apply Hout | now apply Hrest].
      * intros [Hx Hno]. split; [| intro Hr; apply Hno; now right].
        apply (Permutation_in _ (Permutation_sym Hperm)).
        apply in_app_or in Hx. apply in_or_app.
        destruct Hx as [Hx | [<- | Hx]]; [now left | | now right].
        exfalso. apply Hno. now left.
    + rewrite rangeReceived_none.
      2:{ intros idx Hidx. apply in_seq in Hidx. cbn [backing].
          rewrite nth_app_left by lia.
          intro Heq. apply Hout. rewrite <- Heq. apply nth_In. lia. }
      cbn [andThen].
      destruct (IH l junk Hnd) as (l' & junk' & Hrun & Hnd' & Hmem).
      exists l', junk'. split; [exact Hrun|]. split; [exact Hnd'|].
      intro x. rewrite Hmem. cbn [In]. split.
      * intros [Hx Hrest]. split; [exact Hx|].
        intros [<- | Hr]; [now apply Hout | now apply Hrest].
      * intros [Hx Hno]. split; [exact Hx | intro Hr; apply Hno; now right].
Qed.

(** X17: When the received messages are all different, the helper does not
    panic; what it finds left over are the received messages that are
    not among the expected ones, and it returns nil exactly when there
    is none, that is, when every received message is expected.  An
    expected message that was not received goes unnoticed. *)
Theorem cmpStringSlicesIgnoreOrder_distinct (expectedMessages : list string)
  (array : list string) (len : nat) :
  (len <= List.length array)%nat ->
  NoDup (elements (sliceOf array len)) ->
  (exists left,
     NoDup left /\
     (forall x, In x left <->
                In x (elements (sliceOf array len)) /\
                ~ In x expectedMessages) /\
     cmpStringSlicesIgnoreOrder expectedMessages (sliceOf array len)
     = Returned
         match left with
         | [] => None
         | _ :: _ =>
             Some (errorString
               ("more messages were received than published. Additional msgs: "
                ++ formatStrings left))
         end) /\
  (cmpStringSlicesIgnoreOrder expectedMessages (sliceOf array len)
   = Returned None
   <-> incl (elements (sliceOf array len)) expectedMessages).
Proof.
  unfold elements. cbn [sliceLen backing]. intros Hlen Hnd.
  set (l := firstn len array) in *.
  assert (Hrun : exists left,
     NoDup left /\
     (forall x, In x left <-> In x l /\ ~ In x expectedMessages) /\
     cmpStringSlicesIgnoreOrder expectedMessages (sliceOf array len)
     = Returned
         match left with
         | [] => None
         | _ :: _ =>
             Some (errorString
               ("more messages were received than published. Additional msgs: "
                ++ formatStrings left))
         end).
  { destruct (dropExpected_distinct expectedMessages l (skipn len array) Hnd)
      as (l' & junk' & Hdrop & Hnd' & Hmem).
    unfold l in Hdrop at 1 2.
    rewrite firstn_skipn, length_firstn, Nat.min_l in Hdrop by exact Hlen.
    exists l'. split; [exact Hnd'|]. split; [exact Hmem|].
    unfold cmpStringSlicesIgnoreOrder. rewrite Hdrop. cbn [andThen].
    unfold elements. cbn [deepEqualEmpty sliceLen backing].
    rewrite firstn_length_app.
    destruct l'; reflexivity. }
  split; [exact Hrun|].
  destruct Hrun as (left & _ & Hmem & ->).
  split.
  - intros Hnone x Hx.
    destruct (in_dec string_dec x expectedMessages) as [Hin | Hout];
      [exact Hin|].
    destruct left as [| y left]; [|discriminate].
    exfalso. apply (proj2 (Hmem x)). now split.
  - intro Hincl. destruct left as [| y left]; [reflexivity|].
    exfalso. destruct (proj1 (Hmem y) (or_introl eq_refl)) as [Hy Hno].
    apply Hno, Hincl, Hy.
Qed.

(** ** No received message *)

Lemma dropExpected_empty (expectedMessages : list string) (s : stringSlice) :
  sliceLen s = 0%nat -> dropExpected expectedMessages s = Returned s.
Proof.
  intro Hlen. induction expectedMessages as [| expectedMsg rest IH];
    [reflexivity|].
  cbn [dropExpected]. rewrite Hlen. cbn [seq rangeReceived andThen]. exact IH.
Qed.

(** X18: With no received message the answer depends on how the slice was
    made: the nil slice (a variable that was never appended to) is
    reported as leftover messages, whatever is expected, while an empty
    slice that is not nil is accepted. *)
Theorem cmpStringSlicesIgnoreOrder_nothing_received
  (expectedMessages array : list string) :
  cmpStringSlicesIgnoreOrder expectedMessages nilSlice
  = Returned (Some (errorString
      "more messages were received than published. Additional msgs: []")) /\
  cmpStringSlicesIgnoreOrder expectedMessages (sliceOf array 0)
  = Returned None.
Proof.
  unfold cmpStringSlicesIgnoreOrder.
  rewrite !dropExpected_empty by reflexivity. split; reflexivity.
Qed.

(** ** A received message that comes twice *)

(** A pass over indices below [last] either panics, or shortens the
    slice, or finds no match and leaves everything as it is; and cell
    [last] is not written. *)
Lemma rangeReceived_before_last (expectedMsg : string) (last : nat)
  (idxs : list nat) (array : list string) (len : nat) :
  (forall idx, In idx idxs -> idx <> last) ->
  nth last array "" = expectedMsg ->
  (exists msg,
     rangeReceived expectedMsg idxs (sliceOf array len) = Panicked msg) \/
  (exists array' len',
     rangeReceived expectedMsg idxs (sliceOf array len)
     = Returned (sliceOf array' len') /\
     nth last array' "" = expectedMsg /\
     ((len' < len)%nat \/
      (len' = len /\
       forall idx, In idx idxs -> nth idx array "" <> expectedMsg))).
Proof.
  revert array len.
  induction idxs as [| idx idxs IH]; intros array len Hidxs Hlast.
  - right. exists array, len. split; [reflexivity|]. split; [exact Hlast|].
    right. split; [reflexivity | intros idx []].
  - cbn [rangeReceived].
    assert (Hidxs' : forall j, In j idxs -> j <> last)
      by (intros j Hj; apply Hidxs; now right).
    destruct (string_dec (nth idx array "") expectedMsg) as [Heq | Hne].
    + destruct (dropIfEqual_equal_cases expectedMsg idx array len Heq)
        as [(msg & ->) | (Hlt & ->)]; [left; now exists msg|].
      cbn [andThen].
      destruct (IH (setCell array idx (nth (len - 1) array "")) (len - 1)%nat
                  Hidxs') as [(msg & ->) | (array' & len' & -> & Hlast' & Hlen')].
      * rewrite nth_setCell_other; [exact Hlast|].
        intro Heq'. apply (Hidxs idx); [now left | now symmetry].
      * left. now exists msg.
      * right. exists array', len'. split; [reflexivity|].
        split; [exact Hlast'|]. left. destruct Hlen' as [Hlen' | [Hlen' _]]; lia.
    + rewrite dropIfEqual_other by exact Hne. cbn [andThen].
      destruct (IH array len Hidxs' Hlast)
        as [(msg & ->) | (array' & len' & -> & Hlast' & Hlen')];
        [left; now exists msg|].
      right. exists array', len'. split; [reflexivity|].
      split; [exact Hlast'|].
      destruct Hlen' as [Hlen' | [Hlen' Hno]]; [now left | right].
      split; [exact Hlen'|].
      intros j [<- | Hj]; [exact Hne | now apply Hno].
Qed.

(** X19: When the first expected message is the last received one and was
    received before as well, the helper panics: an earlier match
    shortens the slice, and the inner loop still ranges over the cells
    up to the last one, which it then assigns through an index that is
    no longer in range. *)
Theorem cmpStringSlicesIgnoreOrder_twice_panics (expectedMsg : string)
  (rest earlier array : list string) (len : nat) :
  (len <= List.length array)%nat ->
  elements (sliceOf array len) = earlier ++ [expectedMsg] ->
  In expectedMsg earlier ->
  exists msg,
    cmpStringSlicesIgnoreOrder (expectedMsg :: rest) (sliceOf array len)
    = Panicked msg.
Proof.
  unfold elements. cbn [sliceLen backing]. intros Hlen Helems Hin.
  assert (Hn : len = S (List.length earlier)).
  { apply (f_equal (@List.length string)) in Helems.
    rewrite length_firstn, Nat.min_l, length_app in Helems by exact Hlen.
    cbn [List.length] in Helems. lia. }
  assert (Hnth : forall j, (j < len)%nat ->
            nth j array "" = nth j (earlier ++ [expectedMsg]) "").
  { intros j Hj. rewrite <- Helems.
    rewrite <- (firstn_skipn len array) at 1.
    apply app_nth1. rewrite length_firstn. lia. }
  assert (Hlast : nth (List.length earlier) array "" = expectedMsg).
  { rewrite Hnth by lia. rewrite app_nth2 by lia.
    now rewrite Nat.sub_diag. }
  assert (Hpass : exists msg,
            rangeReceived expectedMsg (seq 0 len) (sliceOf array len)
            = Panicked msg).
  { rewrite Hn. rewrite seq_S. cbn [Nat.add]. rewrite rangeReceived_app.
    destruct (rangeReceived_before_last expectedMsg (List.length earlier)
                (seq 0 (List.length earlier)) array
                (S (List.length earlier)))
      as [(msg & ->) | (array' & len' & -> & Hlast' & Hlen')].
    - intros idx Hidx. apply in_seq in Hidx. lia.
    - exact Hlast.
    - now exists msg.
    - cbn [andThen rangeReceived].
      destruct Hlen' as [Hlen' | [_ Hno]].
      + destruct (dropIfEqual_equal_cases expectedMsg (List.length earlier)
                    array' len' Hlast')
          as [(msg & ->) | (Hlt & _)]; [now exists msg | lia].
      + exfalso. apply (In_nth _ _ "") in Hin as (j & Hj & Hjth).
        apply (Hno j); [apply in_seq; lia|].
        rewrite Hnth by lia. now rewrite app_nth1 by lia. }
  destruct Hpass as (msg & Hpass). exists msg.
  unfold cmpStringSlicesIgnoreOrder. cbn [dropExpected sliceLen].
  rewrite Hpass. reflexivity.
Qed.

End TestHelper.

(** * Connecting *)

Section Connecting.
Context `{nats.Types} `{ConnTypes}.

(** ** The url *)

Lemma prefix_byte (c d : ascii) (s : string) :
  prefix (String c "") (String d s) = if ascii_dec c d then true else false.
Proof.
  change (prefix (String c "") (String d s))
    with (if ascii_dec c d then prefix "" s else false).
  destruct (ascii_dec c d); [destruct s|]; reflexivity.
Qed.

Lemma lacks_cons (c d : ascii) (s : string) :
  lacks c (String d s) -> c <> d /\ lacks c s.
Proof.
  unfold lacks. cbn [list_ascii_of_string existsb]. intro Hn.
  apply orb_false_iff in Hn as [Hc Hs]. split; [|exact Hs].
  intros ->. now rewrite Ascii.eqb_refl in Hc.
Qed.

Lemma Index_lacks (c : ascii) (s : string) :
  lacks c s -> Index s (String c "") = None.
Proof.
  unfold Index. induction s as [| d s IH]; intro Hl; [reflexivity|].
  apply lacks_cons in Hl as [Hc Hs].
  rewrite index_cons, prefix_byte.
  destruct (ascii_dec c d) as [Heq | _]; [contradiction|].
  now rewrite (IH Hs).
Qed.

Lemma Index_first_byte (c : ascii) (pre post : string) :
  lacks c pre ->
  Index (pre ++ String c post)%string (String c "")
  = Some (String.length pre).
Proof.
  unfold Index. induction pre as [| d pre IH]; intro Hl.
  - cbn [append]. rewrite index_cons, prefix_byte.
    destruct (ascii_dec c c); [reflexivity | contradiction].
  - apply lacks_cons in Hl as [Hc Hs].
    change ((String d pre ++ String c post)%string)
      with (String d (pre ++ String c post)%string).
    rewrite index_cons, prefix_byte.
    destruct (ascii_dec c d) as [Heq | _]; [contradiction|].
    now rewrite (IH Hs).
Qed.

Lemma substring_all (s : string) : substring 0 (String.length s) s = s.
Proof. induction s as [| c s IH]; simpl; [reflexivity | now rewrite IH]. Qed.

Lemma substring_after (pre post : string) :
  substring (String.length pre) (String.length post) (pre ++ post)%string
  = post.
Proof.
  induction pre as [| c pre IH]; simpl; [apply substring_all | exact IH].
Qed.

(** Splitting what [Join] made gives the elements back, when there is
    at least one and none has the separator in it. *)
Lemma genSplit_Join (c : ascii) (elems : list string) (n : nat) :
  elems <> [] ->
  Forall (lacks c) elems ->
  (String.length (Join elems (String c "")) <= n)%nat ->
  genSplit n (Join elems (String c "")) (String c "") = elems.
Proof.
  revert n. induction elems as [| s elems IH]; intros n Hne Hall Hn;
    [contradiction|].
  apply Forall_cons_iff in Hall as [Hs Hall].
  destruct elems as [| s' elems].
  - change (Join [s] (String c "")) with s.
    destruct n; cbn [genSplit]; [reflexivity|].
    now rewrite (Index_lacks c s Hs).
  - assert (Hjoin : Join (s :: s' :: elems) (String c "")
                    = (s ++ String c (Join (s' :: elems) (String c "")))%string)
      by reflexivity.
    rewrite Hjoin in Hn |- *.
    rewrite length_append in Hn. cbn [String.length] in Hn.
    destruct n as [| n]; [lia|]. cbn [genSplit].
    rewrite (Index_first_byte c s _ Hs), substring_append.
    rewrite length_append. cbn [String.length].
    replace (String.length s + S (String.length (Join (s' :: elems) (String c "")))
             - (String.length s + 1))%nat
      with (String.length (Join (s' :: elems) (String c ""))) by lia.
    replace (s ++ String c (Join (s' :: elems) (String c "")))%string
      with ((s ++ String c "") ++ Join (s' :: elems) (String c ""))%string
      by (now rewrite append_assoc).
    replace (String.length s + 1)%nat with (String.length (s ++ String c ""))
      by (rewrite length_append; reflexivity).
    rewrite substring_after.
    f_equal. apply IH; [discriminate | exact Hall | lia].
Qed.

Section WithLibrary.
Context {W : Type} (lib : Library W).

(** X14: The first thing [makeNATSBridge] does is to connect, with a url
    from which the servers can be read back by splitting at the commas,
    when there is at least one server and none has a comma in it. *)
Theorem makeNATSBridge_url_round_trip (servers : list string)
  (log : Logger) (w : W) :
  servers <> [] ->
  Forall (lacks ",") servers ->
  exists url,
    hd_error (snd (makeNATSBridge lib servers log w))
    = Some (CalledConnect url bridgeOptions) /\
    Split url "," = servers.
Proof.
  intros Hne Hall. exists (Join servers ",").
  split.
  - unfold makeNATSBridge.
    destruct (nats_Connect W lib (Join servers ",") bridgeOptions w)
      as [[nc | err] w1]; [|reflexivity].
    destruct (Conn_JetStream W lib nc w1) as [[js | err] w2]; reflexivity.
  - unfold Split. now apply genSplit_Join.
Qed.

(** X15: When [makeNATSBridge] fails, either connecting failed, and then the
    error wraps the library's one and its text gives the url and the
    library's text, and nothing else was called; or the connection was
    opened and getting the JetStream context failed, and then the
    library's error is returned as it is and the connection is left as
    it was opened: it is not drained. *)
Theorem makeNATSBridge_failure (servers : list string) (log : Logger)
  (w w' : W) (e : error) (called : list libCall) :
  makeNATSBridge lib servers log w = (Err e, w', called) ->
  let url := Join servers "," in
  (exists err,
     nats_Connect W lib url bridgeOptions w = (Err err, w') /\
     Unwrap e = Some err /\
     Is e err = true /\
     Error e
       = ("could not make NATS connection to " ++ url ++ ": " ++ Error err)%string /\
     mentions e url = true /\
     called = [CalledConnect url bridgeOptions]) \/
  (exists nc w1,
     nats_Connect W lib url bridgeOptions w = (Ok nc, w1) /\
     Conn_JetStream W lib nc w1 = (Err e, w') /\
     called = [CalledConnect url bridgeOptions; CalledJetStream nc]).
Proof.
  intros Hrun url. unfold makeNATSBridge in Hrun. fold url in Hrun.
  destruct (nats_Connect W lib url bridgeOptions w) as [[nc | err] w1].
  - destruct (Conn_JetStream W lib nc w1) as [[js | err] w2] eqn:Hjs;
      [discriminate|].
    injection Hrun as <- <- <-. right. exists nc, w1. auto.
  - injection Hrun as <- <- <-. left. exists err.
    assert (Htext :
      Sprintf "could not make NATS connection to %s: %w"
        [AString url; AError err]
      = ("could not make NATS connection to " ++ url ++ ": " ++ Error err)%string).
    { cbn. now rewrite append_nil_r. }
    unfold Errorf, mentions. cbn [wrapped]. cbn [Ascii.eqb Bool.eqb].
    cbn [Unwrap Error]. rewrite Is_wrapError, Htext.
    repeat split.
    apply (Contains_middle "could not make NATS connection to ").
Qed.

(** X16: When [makeNATSBridge] returns a bridge, it holds the connection
    [Connect] answered with, the JetStream context of that connection,
    and the logger it was given; these two calls are all it made. *)
Theorem makeNATSBridge_success (servers : list string) (log0 : Logger)
  (w w' : W) (c : natsBridge) (called : list libCall) :
  makeNATSBridge lib servers log0 w = (Ok c, w', called) ->
  let url := Join servers "," in
  exists w1,
    nats_Connect W lib url bridgeOptions w = (Ok (connection c), w1) /\
    Conn_JetStream W lib (connection c) w1 = (Ok (jetStreamContext c), w') /\
    log c = log0 /\
    called = [CalledConnect url bridgeOptions; CalledJetStream (connection c)].
Proof.
  intros Hrun url. unfold makeNATSBridge in Hrun. fold url in Hrun.
  destruct (nats_Connect W lib url bridgeOptions w) as [[nc | err] w1];
    [|discriminate].
  destruct (Conn_JetStream W lib nc w1) as [[js | err] w2] eqn:Hjs;
    [|discriminate].
  injection Hrun as <- <- <-. exists w1. auto.
Qed.

End WithLibrary.
End Connecting.

(** * The further properties at work *)

Section MoreInstances.
#[local] Existing Instance plainTypes.
#[local] Existing Instance plainConnTypes.

Lemma memoryBroker_keeps_streams : KeepsStreams memoryBroker.
Proof.
  split.
  - intros cfg b streamInfo b' Hadd. cbn [memoryBroker] in Hadd.
    injection Hadd as _ <-.
    exists cfg. eexists. cbn [memoryBroker streams existsb].
    cbn [nats.StreamConfig_Name plainTypes].
    now rewrite String.eqb_refl.
  - intros stream b streamInfo b' Hl. cbn [memoryBroker] in Hl.
    destruct (existsb (String.eqb stream) (streams b)) eqn:Hs; [|discriminate].
    injection Hl as _ <-.
    exists stream, b. cbn [memoryBroker]. now rewrite Hs.
Qed.

Lemma memoryBroker_subscribe_quiet : SubscribeKeepsConsumers memoryBroker.
Proof.
  intros subj durable opt r b b' stream consumer ci b1 Hsub Hl.
  cbn [memoryBroker] in Hsub. injection Hsub as _ <-.
  cbn [memoryBroker] in Hl.
  destruct (findConsumer stream consumer b) as [found |] eqn:Hf;
    [|discriminate].
  injection Hl as <- <-.
  exists found, b. cbn [memoryBroker]. rewrite Hf. now split.
Qed.

(** The broker holds consumer [C] with bound 0: it is found. *)
Lemma getOrAddConsumer_success_witness :
  (memoryBroker (jetStreamContext.ConsumerInfo "orders" "C")
     (holding "orders" "C" 0)
   = (Ok (newConsumer (sampleConfig "C" 0)), holding "orders" "C" 0) /\
   MaxAckPending (Config (newConsumer (sampleConfig "C" 0)))
   = MaxAckPending (sampleConfig "C" 0) /\
   [Called (jetStreamContext.ConsumerInfo "orders" "C")]
   = [Called (jetStreamContext.ConsumerInfo "orders" "C")]) \/
  (exists err b0,
     memoryBroker (jetStreamContext.ConsumerInfo "orders" "C")
       (holding "orders" "C" 0) = (Err err, b0) /\
     Contains (Error err) "consumer not found" = true /\
     memoryBroker (jetStreamContext.AddConsumer "orders" (sampleConfig "C" 0)) b0
     = (Ok (newConsumer (sampleConfig "C" 0)), holding "orders" "C" 0) /\
     calls [Called (jetStreamContext.ConsumerInfo "orders" "C")]
     = [jetStreamContext.ConsumerInfo "orders" "C";
        jetStreamContext.AddConsumer "orders" (sampleConfig "C" 0)]).
Proof.
  apply (getOrAddConsumer_success memoryBroker (holding "orders" "C" 0)
           (holding "orders" "C" 0) "orders" (sampleConfig "C" 0)
           (newConsumer (sampleConfig "C" 0))
           [Called (jetStreamContext.ConsumerInfo "orders" "C")]).
  reflexivity.
Defined.

(** A consumer stored with bound 1 is found by a request that differs
    from the stored configuration in ack policy and ack wait. *)
Lemma getOrAddConsumer_existing_compares_bound_only_witness :
  run memoryBroker (getOrAddConsumer "orders" (sampleConfig "C" 1))
    (holding "orders" "C" 1)
  = run memoryBroker
      (getOrAddConsumer "orders" (looseConfig "C" 1))
      (holding "orders" "C" 1).
Proof.
  apply (getOrAddConsumer_existing_compares_bound_only memoryBroker
           (holding "orders" "C" 1) (holding "orders" "C" 1) "orders"
           (sampleConfig "C" 1) (looseConfig "C" 1)
           (newConsumer (sampleConfig "C" 1)));
    reflexivity.
Defined.

Lemma getOrAddConsumer_add_failure_wrapped_witness :
  exists e,
    fst (fst (run readOnlyBroker
                (getOrAddConsumer "orders" (sampleConfig "C" 0)) tt))
      = Returned (Err e) /\
    Unwrap e = Some (clientError "nats: permissions violation") /\
    Is e (clientError "nats: permissions violation") = true /\
    Error e
      = "consumer C could not be added to stream orders: nats: permissions violation" /\
    mentions e "C" = true /\
    mentions e "orders" = true.
Proof.
  apply (getOrAddConsumer_add_failure_wrapped readOnlyBroker tt tt tt "orders"
           (sampleConfig "C" 0) (clientError "nats: consumer not found")
           (clientError "nats: permissions violation"));
    reflexivity.
Defined.

(** Consumer [C] is added for [MultipleInstances] on the broker with a
    default of its own, and then asked for in order mode: the drift
    error gives the bound 1000 the broker holds. *)
Lemma getOrAddConsumer_mode_switch_drifts_witness :
  MaxAckPending (Config (newConsumer (sampleConfig "C" 1000)))
    <> MaxAckPending
         (patchConsumerConfig (sampleConfig "C" 0) SingleInstanceMessagesInOrder) /\
  exists b2,
    run defaultingBroker
      (getOrAddConsumer "orders"
         (patchConsumerConfig (sampleConfig "C" 0) SingleInstanceMessagesInOrder))
      {| streams := [];
         consumers := [("orders", newConsumer (sampleConfig "C" 1000))] |}
    = (Returned (Err (driftError "C"
         (MaxAckPending (Config (newConsumer (sampleConfig "C" 1000)))))),
       b2, [Called (jetStreamContext.ConsumerInfo "orders" "C")]).
Proof.
  assert (Hne : MaxAckPending (Config (newConsumer (sampleConfig "C" 1000)))
    <> MaxAckPending
         (patchConsumerConfig (sampleConfig "C" 0) SingleInstanceMessagesInOrder))
    by (vm_compute; lia).
  split; [exact Hne|].
  eapply (getOrAddConsumer_mode_switch_drifts defaultingBroker
            defaultingBroker_keeps emptyMemory _ "orders" (sampleConfig "C" 0)
            MultipleInstances SingleInstanceMessagesInOrder
            (newConsumer (sampleConfig "C" 1000))).
  - reflexivity.
  - exact Hne.
Defined.

Lemma GetOrAddStream_add_failure_wrapped_witness :
  exists e,
    fst (run readOnlyBroker (GetOrAddStream "orders") tt)
      = (Returned (Err e), tt) /\
    Unwrap e = Some (clientError "nats: permissions violation") /\
    Is e (clientError "nats: permissions violation") = true /\
    Error e
      = "streamInfo orders could not be created: nats: permissions violation" /\
    mentions e "orders" = true.
Proof.
  apply (GetOrAddStream_add_failure_wrapped readOnlyBroker tt tt tt "orders"
           (clientError "nats: permissions violation"));
    reflexivity.
Defined.

Lemma GetOrAddStream_idempotent_witness :
  exists streamInfo' b2,
    memoryBroker (jetStreamContext.StreamInfo "orders")
      {| streams := ["orders"]; consumers := [] |}
      = (Ok streamInfo', b2) /\
    run memoryBroker (GetOrAddStream "orders")
      {| streams := ["orders"]; consumers := [] |}
    = (Returned (Ok streamInfo'), b2,
       [Called (jetStreamContext.StreamInfo "orders")]).
Proof.
  eapply (GetOrAddStream_idempotent memoryBroker memoryBroker_keeps_streams
            emptyMemory _ "orders" "orders").
  reflexivity.
Defined.

Lemma CreateSubscription_other_modes_as_MultipleInstances_witness :
  7 <> SingleInstanceMessagesInOrder /\
  CreateSubscription "orders.created" "C" 7
  = CreateSubscription "orders.created" "C" MultipleInstances.
Proof.
  assert (Hne : 7 <> SingleInstanceMessagesInOrder) by (vm_compute; lia).
  split; [exact Hne|].
  exact (CreateSubscription_other_modes_as_MultipleInstances
           "orders.created" "C" 7 Hne).
Defined.

Lemma CreateSubscription_success_witness :
  exists ci b1 evs0,
    run memoryBroker
      (getOrAddConsumer "orders"
         (patchConsumerConfig (literalConfig "C") MultipleInstances))
      (holding "orders" "C" 0)
      = (Returned (Ok ci), b1, evs0) /\
    memoryBroker
      (jetStreamContext.PullSubscribe "orders.created" "C"
         (nats.Bind "orders" "C")) b1
      = (Ok (streamSubscription (pulled "orders.created" "C")),
         holding "orders" "C" 0) /\
    [Called (jetStreamContext.ConsumerInfo "orders" "C");
     Called (jetStreamContext.PullSubscribe "orders.created" "C"
               (nats.Bind "orders" "C"))]
    = evs0 ++ [Called (jetStreamContext.PullSubscribe "orders.created" "C"
                         (nats.Bind "orders" "C"))] /\
    existsb isPullSubscribe (calls evs0) = false.
Proof.
  apply (CreateSubscription_success memoryBroker (holding "orders" "C" 0)
           (holding "orders" "C" 0) "orders.created" "C" MultipleInstances
           "orders" ["created"] (pulled "orders.created" "C")
           [Called (jetStreamContext.ConsumerInfo "orders" "C");
            Called (jetStreamContext.PullSubscribe "orders.created" "C"
                      (nats.Bind "orders" "C"))]);
    reflexivity.
Defined.

(** The consumer is there, the pull subscription is refused. *)
Lemma CreateSubscription_subscribe_fails_witness :
  run pushOnlyBroker
    (CreateSubscription "orders.created" "C" MultipleInstances)
    (holding "orders" "C" 0)
  = (Returned (Err (clientError "nats: pull subscribe not supported")),
     holding "orders" "C" 0,
     [Called (jetStreamContext.ConsumerInfo "orders" "C")]
     ++ [Called (jetStreamContext.PullSubscribe "orders.created" "C"
                   (nats.Bind "orders" "C"))]).
Proof.
  apply (CreateSubscription_subscribe_fails pushOnlyBroker
           (holding "orders" "C" 0) (holding "orders" "C" 0)
           (holding "orders" "C" 0) "orders.created" "C" MultipleInstances
           "orders" ["created"] (newConsumer (sampleConfig "C" 0))
           [Called (jetStreamContext.ConsumerInfo "orders" "C")]
           (clientError "nats: pull subscribe not supported"));
    reflexivity.
Defined.

(** The first call, on the empty in-memory broker, adds the consumer;
    the second finds it with the bound that was sent, and subscribes. *)
Lemma CreateSubscription_again_witness :
  exists ci0 b0 evs0 ci b1,
    run memoryBroker
      (getOrAddConsumer "orders"
         (patchConsumerConfig (literalConfig "C") MultipleInstances))
      emptyMemory
      = (Returned (Ok ci0), b0, evs0) /\
    memoryBroker (jetStreamContext.ConsumerInfo "orders" "C")
      {| streams := [];
         consumers := [("orders", newConsumer (sampleConfig "C" 0))] |}
      = (Ok ci, b1) /\
    MaxAckPending (Config ci) = MaxAckPending (Config ci0) /\
    run memoryBroker
      (CreateSubscription "orders.created" "C" MultipleInstances)
      {| streams := [];
         consumers := [("orders", newConsumer (sampleConfig "C" 0))] |}
    = if MaxAckPending (Config ci)
         =? MaxAckPending
              (patchConsumerConfig (literalConfig "C") MultipleInstances)
      then
        (Returned
           match fst (memoryBroker
                        (jetStreamContext.PullSubscribe "orders.created" "C"
                           (nats.Bind "orders" "C")) b1) with
           | Err err => Err err
           | Ok sub => Ok {| streamSubscription := sub |}
           end,
         snd (memoryBroker
                (jetStreamContext.PullSubscribe "orders.created" "C"
                   (nats.Bind "orders" "C")) b1),
         [Called (jetStreamContext.ConsumerInfo "orders" "C");
          Called (jetStreamContext.PullSubscribe "orders.created" "C"
                    (nats.Bind "orders" "C"))])
      else
        (Returned (Err (driftError "C" (MaxAckPending (Config ci)))),
         b1, [Called (jetStreamContext.ConsumerInfo "orders" "C")]).
Proof.
  eapply (CreateSubscription_again memoryBroker memoryBroker_keeps
            memoryBroker_subscribe_quiet emptyMemory _ "orders.created" "C"
            MultipleInstances "orders" ["created"]
            (pulled "orders.created" "C"));
    reflexivity.
Defined.

Lemma makeNATSBridge_url_round_trip_witness :
  exists url,
    hd_error (snd (makeNATSBridge workingLibrary
                     ["nats://a:4222"; "nats://b:4222"] tt 0%nat))
    = Some (CalledConnect url bridgeOptions) /\
    Split url "," = ["nats://a:4222"; "nats://b:4222"].
Proof.
  apply (makeNATSBridge_url_round_trip workingLibrary
           ["nats://a:4222"; "nats://b:4222"] tt 0%nat).
  - discriminate.
  - repeat constructor.
Defined.

(** No server is reached: the error wraps the library's.  The servers
    are reached but have no JetStream: the library's error comes back,
    and the one connection opened stays open. *)
Lemma makeNATSBridge_failure_witness :
  makeNATSBridge unreachableLibrary twoServers tt 0%nat
    = (Err unreachableError, 0%nat,
       [CalledConnect "nats://a:4222,nats://b:4222" bridgeOptions]) /\
  ((exists err,
      nats_Connect nat unreachableLibrary (Join twoServers ",") bridgeOptions
        0%nat = (Err err, 0%nat) /\
      Unwrap unreachableError = Some err /\
      Is unreachableError err = true /\
      Error unreachableError
        = ("could not make NATS connection to " ++ Join twoServers ","
           ++ ": " ++ Error err)%string /\
      mentions unreachableError (Join twoServers ",") = true /\
      [CalledConnect "nats://a:4222,nats://b:4222" bridgeOptions]
      = [CalledConnect (Join twoServers ",") bridgeOptions]) \/
   (exists nc w1,
      nats_Connect nat unreachableLibrary (Join twoServers ",") bridgeOptions
        0%nat = (Ok nc, w1) /\
      Conn_JetStream nat unreachableLibrary nc w1
        = (Err unreachableError, 0%nat) /\
      [CalledConnect "nats://a:4222,nats://b:4222" bridgeOptions]
      = [CalledConnect (Join twoServers ",") bridgeOptions;
         CalledJetStream nc])) /\
  makeNATSBridge plainNatsLibrary twoServers tt 0%nat
    = (Err (clientError "nats: jetstream not enabled"), 1%nat,
       [CalledConnect "nats://a:4222,nats://b:4222" bridgeOptions;
        CalledJetStream (connection (plainBridge "nats://a:4222,nats://b:4222"))]).
Proof.
  split; [reflexivity|]. split; [|reflexivity].
  apply (makeNATSBridge_failure unreachableLibrary twoServers tt 0%nat 0%nat
           unreachableError
           [CalledConnect "nats://a:4222,nats://b:4222" bridgeOptions]).
  reflexivity.
Defined.

Lemma makeNATSBridge_success_witness :
  exists w1,
    nats_Connect nat workingLibrary (Join ["nats://a:4222"] ",")
      bridgeOptions 0%nat
      = (Ok (connection (plainBridge "nats://a:4222")), w1) /\
    Conn_JetStream nat workingLibrary
      (connection (plainBridge "nats://a:4222")) w1
      = (Ok (jetStreamContext (plainBridge "nats://a:4222")), 1%nat) /\
    log (plainBridge "nats://a:4222") = tt /\
    [CalledConnect "nats://a:4222" bridgeOptions;
     CalledJetStream (connection (plainBridge "nats://a:4222"))]
    = [CalledConnect (Join ["nats://a:4222"] ",") bridgeOptions;
       CalledJetStream (connection (plainBridge "nats://a:4222"))].
Proof.
  apply (makeNATSBridge_success workingLibrary ["nats://a:4222"] tt 0%nat 1%nat
           (plainBridge "nats://a:4222")
           [CalledConnect "nats://a:4222" bridgeOptions;
            CalledJetStream (connection (plainBridge "nats://a:4222"))]).
  reflexivity.
Defined.

(** The fifth row of the test table: [hello] and [world] are received,
    only [world] is expected. *)
Lemma cmpStringSlicesIgnoreOrder_distinct_witness :
  (exists left,
     NoDup left /\
     (forall x, In x left <->
                In x (elements (sliceOf ["hello"; "world"] 2)) /\
                ~ In x ["world"]) /\
     cmpStringSlicesIgnoreOrder ["world"] (sliceOf ["hello"; "world"] 2)
     = Returned
         match left with
         | [] => None
         | _ :: _ =>
             Some (errorString
               ("more messages were received than published. Additional msgs: "
                ++ formatStrings left))
         end) /\
  (cmpStringSlicesIgnoreOrder ["world"] (sliceOf ["hello"; "world"] 2)
   = Returned None
   <-> incl (elements (sliceOf ["hello"; "world"] 2)) ["world"]).
Proof.
  apply (cmpStringSlicesIgnoreOrder_distinct ["world"] ["hello"; "world"] 2).
  - simpl. lia.
  - vm_compute. repeat constructor; simpl; intuition discriminate.
Defined.

Lemma cmpStringSlicesIgnoreOrder_twice_panics_witness :
  exists msg,
    cmpStringSlicesIgnoreOrder ["hello"; "world"]
      (sliceOf ["hello"; "world"; "hello"] 3)
    = Panicked msg.
Proof.
  apply (cmpStringSlicesIgnoreOrder_twice_panics "hello" ["world"]
           ["hello"; "world"] ["hello"; "world"; "hello"] 3).
  - simpl. lia.
  - reflexivity.
  - simpl. now left.
Defined.

End MoreInstances.
